(** * The Ethereum price monitor of [src/main.py]

    A shallow embedding of the class [EthereumPriceMonitor]: its settings
    file, its price fetch, the percentage computation, the alert decision
    and one iteration of the polling loop, followed by the properties the
    specification states about them.

    Python's [float] is IEEE 754 binary64, which is what Rocq's primitive
    [float] is, so prices, thresholds and percentages are computed with the
    very operations the program runs, NaN and infinities included. *)

From Stdlib Require Import ZArith List String Ascii Bool Lia DecimalString.
From Stdlib Require Import Floats.
Import ListNotations.

Local Open Scope string_scope.
Local Open Scope Z_scope.

(** ** The Python runtime the program relies on *)

Module Py.

(** Exceptions the program can meet.  They are all subclasses of
    [Exception], so both [except:] and [except Exception] catch them. *)
Inductive exn : Type :=
| KeyError
| IndexError
| TypeError
| ValueError
| AttributeError
| OSError
| RequestException
| JSONDecodeError
| ZeroDivisionError
| OverflowError.

(** The result of evaluating an expression that has no effect on the
    object: a value or a raised exception. *)
Inductive result (A : Type) : Type :=
| Val (a : A)
| Exc (e : exn).
Arguments Val {A} a.
Arguments Exc {A} e.

Definition rbind {A B : Type} (r : result A) (k : A -> result B) : result B :=
  match r with
  | Val a => k a
  | Exc e => Exc e
  end.

(** What [response.json()] builds: [None], a [bool], an [int] (a number
    written without fraction or exponent), a [float], a [str] held as its
    UTF-8 bytes, a list, or a dict given by its bindings, each key once. *)
#[warnings="-register-all"] Inductive json : Type :=
| JNull
| JBool (b : bool)
| JInt (n : Z)
| JNum (x : float)
| JStr (s : string)
| JArr (items : list json)
| JObj (bindings : list (string * json)).

Fixpoint lookup {A : Type} (k : string) (d : list (string * A)) : option A :=
  match d with
  | [] => None
  | (k', v) :: d' => if String.eqb k k' then Some v else lookup k d'
  end.

(** [v[k]] for a string key [k]. *)
Definition getitem (v : json) (k : string) : result json :=
  match v with
  | JObj d => match lookup k d with
              | Some x => Val x
              | None => Exc KeyError
              end
  | _ => Exc TypeError
  end.

(** The bytes of the first character of a UTF-8 text: as many as its
    first byte announces. *)
Definition first_character (s : string) : string :=
  match s with
  | String c _ =>
      let n := Z.of_nat (nat_of_ascii c) in
      let width := if n <? 192 then 1 else if n <? 224 then 2
                   else if n <? 240 then 3 else 4 in
      substring 0 (Z.to_nat width) s
  | EmptyString => EmptyString
  end.

(** [v[0]]: the first element of a list, the first character of a string;
    a dict built from JSON has no integer key. *)
Definition getitem0 (v : json) : result json :=
  match v with
  | JArr (x :: _) => Val x
  | JArr [] => Exc IndexError
  | JStr (String c rest) => Val (JStr (first_character (String c rest)))
  | JStr EmptyString => Exc IndexError
  | JObj _ => Exc KeyError
  | _ => Exc TypeError
  end.

(** [v == s] for a string literal [s]. *)
Definition eq_str (v : json) (s : string) : bool :=
  match v with
  | JStr s' => String.eqb s' s
  | _ => false
  end.

(** *** [float(s)] on a string *)

(** The code points of a UTF-8 text, [None] when the bytes are not the
    encoding of a [str]. *)
Definition continuation (c : ascii) : option Z :=
  let n := Z.of_nat (nat_of_ascii c) in
  if (128 <=? n) && (n <? 192) then Some (n - 128) else None.

Fixpoint code_points (l : list ascii) : option (list Z) :=
  let cons_to (cp : Z) (rest : option (list Z)) :=
    match rest with
    | Some cps => Some (cp :: cps)
    | None => None
    end in
  match l with
  | [] => Some []
  | b1 :: l1 =>
      let n1 := Z.of_nat (nat_of_ascii b1) in
      if n1 <? 128 then cons_to n1 (code_points l1)
      else
        match l1 with
        | b2 :: l2 =>
            match continuation b2 with
            | Some n2 =>
                if (194 <=? n1) && (n1 <? 224) then
                  cons_to ((n1 - 192) * 64 + n2) (code_points l2)
                else
                  match l2 with
                  | b3 :: l3 =>
                      match continuation b3 with
                      | Some n3 =>
                          if (224 <=? n1) && (n1 <? 240) then
                            let cp := ((n1 - 224) * 64 + n2) * 64 + n3 in
                            if (2048 <=? cp) && negb ((55296 <=? cp) && (cp <? 57344))
                            then cons_to cp (code_points l3)
                            else None
                          else
                            match l3 with
                            | b4 :: l4 =>
                                match continuation b4 with
                                | Some n4 =>
                                    let cp :=
                                      (((n1 - 240) * 64 + n2) * 64 + n3) * 64 + n4 in
                                    if (240 <=? n1) && (65536 <=? cp) && (cp <? 1114112)
                                    then cons_to cp (code_points l4)
                                    else None
                                | None => None
                                end
                            | [] => None
                            end
                      | None => None
                      end
                  | [] => None
                  end
            | None => None
            end
        | [] => None
        end
  end.

(** The characters beyond ASCII that [str.isspace] takes as blanks. *)
Definition unicode_spaces : list Z :=
  [133; 160; 5760; 8192; 8193; 8194; 8195; 8196; 8197; 8198;
   8199; 8200; 8201; 8202; 8232; 8233; 8239; 8287; 12288].

(** The first code point of each run of ten decimal digits beyond ASCII
    (Unicode 14.0, the tables of CPython 3.11). *)
Definition unicode_digit_zeros : list Z :=
  [1632; 1776; 1984; 2406; 2534; 2662; 2790; 2918;
   3046; 3174; 3302; 3430; 3558; 3664; 3792; 3872;
   4160; 4240; 6112; 6160; 6470; 6608; 6784; 6800;
   6992; 7088; 7232; 7248; 42528; 43216; 43264; 43472;
   43504; 43600; 44016; 65296; 66720; 68912; 69734; 69872;
   69942; 70096; 70384; 70736; 70864; 71248; 71360; 71472;
   71904; 72016; 72784; 73040; 73120; 92768; 92864; 93008;
   120782; 120792; 120802; 120812; 120822; 123200; 123632; 125264;
   130032].

Definition unicode_decimal (cp : Z) : option Z :=
  match find (fun zero => (zero <=? cp) && (cp <? zero + 10)) unicode_digit_zeros with
  | Some zero => Some (cp - zero)
  | None => None
  end.

(** What [float] makes of each character before it parses: an ASCII
    character is kept, a blank beyond ASCII becomes a space, a decimal
    digit beyond ASCII its ASCII digit; any other character makes the
    text no number. *)
Definition to_ascii (cp : Z) : option ascii :=
  if cp <? 128 then Some (ascii_of_nat (Z.to_nat cp))
  else if existsb (Z.eqb cp) unicode_spaces then Some " "%char
  else match unicode_decimal cp with
       | Some d => Some (ascii_of_nat (Z.to_nat (48 + d)))
       | None => None
       end.

Fixpoint all_to_ascii (cps : list Z) : option (list ascii) :=
  match cps with
  | [] => Some []
  | cp :: rest =>
      match to_ascii cp, all_to_ascii rest with
      | Some c, Some l => Some (c :: l)
      | _, _ => None
      end
  end.

Definition is_space (c : ascii) : bool :=
  let n := Z.of_nat (nat_of_ascii c) in
  ((9 <=? n) && (n <=? 13)) || (n =? 32).

Definition digit_of (c : ascii) : option Z :=
  let n := Z.of_nat (nat_of_ascii c) in
  if (48 <=? n) && (n <=? 57) then Some (n - 48) else None.

Definition lower (c : ascii) : ascii :=
  let n := nat_of_ascii c in
  if (65 <=? n)%nat && (n <=? 90)%nat then ascii_of_nat (n + 32) else c.

Fixpoint drop_spaces (l : list ascii) : list ascii :=
  match l with
  | c :: l' => if is_space c then drop_spaces l' else l
  | [] => []
  end.

Definition strip (l : list ascii) : list ascii :=
  rev (drop_spaces (rev (drop_spaces l))).

(** A run of digits in which single underscores may separate digits:
    the digits read (most significant first) and what follows them. *)
Fixpoint digit_run (l : list ascii) (after_digit : bool) : list Z * list ascii :=
  match l with
  | c :: l' =>
      match digit_of c with
      | Some d => let (ds, rest) := digit_run l' true in (d :: ds, rest)
      | None =>
          if after_digit && Ascii.eqb c "_" then
            match l' with
            | c' :: _ =>
                match digit_of c' with
                | Some _ => digit_run l' false
                | None => ([], l)
                end
            | [] => ([], l)
            end
          else ([], l)
      end
  | [] => ([], [])
  end.

Definition number_of (ds : list Z) : Z := fold_left (fun acc d => 10 * acc + d) ds 0.

Definition take_sign (l : list ascii) : bool * list ascii :=
  match l with
  | c :: l' => if Ascii.eqb c "-" then (true, l')
               else if Ascii.eqb c "+" then (false, l')
               else (false, l)
  | [] => (false, [])
  end.

Definition dec (n : Z) : string := NilZero.string_of_uint (N.to_uint (Z.to_N n)).

(** The binary64 nearest to [m * 10 ^ e10] (ties to even), with the sign
    [neg]; [m >= 0]. *)
Definition float_of_decimal (neg : bool) (m e10 : Z) : float :=
  let signed (x : float) := if neg then (- x)%float else x in
  if m =? 0 then signed 0%float
  else
    let magnitude := Z.of_nat (String.length (dec m)) + e10 in
    if 310 <? magnitude then signed infinity
    else if magnitude <? -330 then signed 0%float
    else
      match e10 with
      | Zneg p =>
          SF2Prim (SFdiv prec emax (S754_finite neg (Z.to_pos m) 0)
                                   (S754_finite false (10 ^ p)%positive 0))
      | _ => signed (SF2Prim (binary_normalize prec emax (m * 10 ^ e10) 0 false))
      end.

Definition mantissa_exponent (l : list ascii) : option (Z * Z) :=
  let (ip, l1) := digit_run l false in
  let (fp, l2) :=
    match l1 with
    | c :: l1' => if Ascii.eqb c "." then digit_run l1' false else ([], l1)
    | [] => ([], [])
    end in
  match (ip ++ fp)%list with
  | [] => None
  | ds =>
      let m := number_of ds in
      let shift := Z.of_nat (List.length fp) in
      match l2 with
      | [] => Some (m, - shift)
      | c :: l3 =>
          if Ascii.eqb (lower c) "e" then
            let (eneg, l4) := take_sign l3 in
            match digit_run l4 false with
            | ((_ :: _) as es, []) =>
                let e := number_of es in
                Some (m, (if eneg then - e else e) - shift)
            | _ => None
            end
          else None
      end
  end.

(** [float] on ASCII text. *)
Definition float_of_ascii (l : list ascii) : result float :=
  let (neg, body) := take_sign (strip l) in
  let word := string_of_list_ascii (map lower body) in
  if String.eqb word "inf" || String.eqb word "infinity" then
    Val (if neg then neg_infinity else infinity)
  else if String.eqb word "nan" then Val nan
  else
    match mantissa_exponent body with
    | Some (m, e10) => Val (float_of_decimal neg m e10)
    | None => Exc ValueError
    end.

Definition float_of_string (s : string) : result float :=
  match code_points (list_ascii_of_string s) with
  | Some cps =>
      match all_to_ascii cps with
      | Some l => float_of_ascii l
      | None => Exc ValueError
      end
  | None => Exc ValueError
  end.

(** [float(n)] on an [int]: the nearest float, ties to even, or
    [OverflowError] when that is beyond the largest float. *)
Definition float_of_int (n : Z) : result float :=
  match binary_normalize prec emax n 0 false with
  | S754_infinity _ => Exc OverflowError
  | x => Val (SF2Prim x)
  end.

(** [float(v)] *)
Definition to_float (v : json) : result float :=
  match v with
  | JNum x => Val x
  | JInt n => float_of_int n
  | JBool b => Val (if b then 1%float else 0%float)
  | JStr s => float_of_string s
  | _ => Exc TypeError
  end.

(** *** [format(x, ".2f")] and [format(x, "+.2f")] *)

(** [num / den] rounded to the nearest integer, ties to even;
    [0 <= num], [0 < den]. *)
Definition round_half_even (num den : Z) : Z :=
  let q := num / den in
  match 2 * (num mod den) ?= den with
  | Lt => q
  | Gt => q + 1
  | Eq => if Z.even q then q else q + 1
  end.

(** The hundredths in [m * 2 ^ e], correctly rounded. *)
Definition hundredths (m : positive) (e : Z) : Z :=
  match e with
  | Zneg p => round_half_even (Zpos m * 100) (2 ^ Zpos p)
  | _ => Zpos m * 100 * 2 ^ e
  end.

Definition two_digits (n : Z) : string :=
  if n <? 10 then "0" ++ dec n else dec n.

Definition fixed2 (h : Z) : string := dec (h / 100) ++ "." ++ two_digits (h mod 100).

Definition sign_prefix (always : bool) (negative : bool) : string :=
  if negative then "-" else if always then "+" else "".

(** [always_sign] is the [+] flag of the format specification. *)
Definition format_2f (always_sign : bool) (x : float) : string :=
  match Prim2SF x with
  | S754_nan => sign_prefix always_sign false ++ "nan"
  | S754_infinity s => sign_prefix always_sign s ++ "inf"
  | S754_zero s => sign_prefix always_sign s ++ "0.00"
  | S754_finite s m e => sign_prefix always_sign s ++ fixed2 (hundredths m e)
  end.

(** *** [x / y] on floats *)

(** Python raises on a zero divisor where IEEE 754 returns an infinity or
    NaN. *)
Definition truediv (x y : float) : result float :=
  if (y =? 0)%float then Exc ZeroDivisionError else Val (x / y)%float.

End Py.

(** ** The program's state and its surroundings *)

Import Py.

Definition CONFIG_FILENAME : string := "eth_alarm_config.json".
Definition UPDATE_INTERVAL : Z := 10.

(** What a click on a menu entry calls. *)
Inductive action : Type :=
| NoAction
| SetCurrentAsReference
| SetAlertThreshold (threshold : float)
| ExitProgram.

(** The text of a menu entry.  The threshold entry interpolates the
    threshold with [str], which is kept unrendered here. *)
Inductive label : Type :=
| Text (s : string)
| ThresholdText (threshold : float).

Inductive menu_item : Type :=
| MenuItem (text : label) (act : action)
| SubMenu (text : label) (items : list (label * action))
| SEPARATOR.

Definition menu : Type := list menu_item.

(** The attributes of an [EthereumPriceMonitor].  [tray_icon] is [None]
    until [create_tray_icon] has assigned the attribute, and then holds the
    icon's current menu. *)
Record monitor : Type := {
  current_price : float;
  reference_price : float;
  price_change_threshold : float;
  last_update : string;
  running : bool;
  tray_icon : option menu
}.

(** Assignments to one attribute. *)
Definition with_current_price (s : monitor) (price : float) : monitor :=
  {| current_price := price; reference_price := reference_price s;
     price_change_threshold := price_change_threshold s;
     last_update := last_update s; running := running s;
     tray_icon := tray_icon s |}.

Definition with_reference (s : monitor) (reference : float) : monitor :=
  {| current_price := current_price s; reference_price := reference;
     price_change_threshold := price_change_threshold s;
     last_update := last_update s; running := running s;
     tray_icon := tray_icon s |}.

Definition with_threshold (s : monitor) (threshold : float) : monitor :=
  {| current_price := current_price s; reference_price := reference_price s;
     price_change_threshold := threshold;
     last_update := last_update s; running := running s;
     tray_icon := tray_icon s |}.

Definition with_last_update (s : monitor) (now : string) : monitor :=
  {| current_price := current_price s; reference_price := reference_price s;
     price_change_threshold := price_change_threshold s;
     last_update := now; running := running s; tray_icon := tray_icon s |}.

Definition with_running (s : monitor) (b : bool) : monitor :=
  {| current_price := current_price s; reference_price := reference_price s;
     price_change_threshold := price_change_threshold s;
     last_update := last_update s; running := b; tray_icon := tray_icon s |}.

Definition with_menu (s : monitor) (m : menu) : monitor :=
  {| current_price := current_price s; reference_price := reference_price s;
     price_change_threshold := price_change_threshold s;
     last_update := last_update s; running := running s;
     tray_icon := Some m |}.

(** The two assignments of a successful fetch. *)
Definition with_price (s : monitor) (price : float) (now : string) : monitor :=
  with_last_update (with_current_price s price) now.

(** The file [CONFIG_FILENAME] as [load_config] finds it.  The bindings of
    an object are numbers: the two settings are floats throughout the
    program ([0.0] and [1.0] at start, later a fetched price or a preset),
    and numbers are what [save_config] writes.  A file that binds a key to
    a string, a list or [null] is not covered. *)
Inductive config_file : Type :=
| Missing
| Unreadable
| NotAnObject
| Object (bindings : list (string * float)).

(** The files the program writes: the settings file, with whether it can
    be opened for writing, and standard output, with the exception a write
    to it raises, if any (a closed pipe, a message the console cannot
    encode). *)
Record disk : Type := {
  contents : config_file;
  writable : bool;
  stdout_error : option exn
}.

(** What the program does to the outside, oldest first. *)
Inductive event : Type :=
| Printed (e : exn)
| Notified (message : string)
| Saved (reference threshold : float)
| MenuAssigned (m : menu)
| IconStopped.

Record world : Type := {
  self : monitor;
  files : disk;
  trace : list event
}.

(** The answer of the exchange to one request. *)
Inductive http : Type :=
| NoResponse
| Response (body : option json).

(** ** Statements: state and exceptions *)

Inductive outcome (A : Type) : Type :=
| Ok (a : A) (w : world)
| Raised (e : exn) (w : world).
Arguments Ok {A} a w.
Arguments Raised {A} e w.

Definition M (A : Type) : Type := world -> outcome A.

Definition ret {A : Type} (a : A) : M A := fun w => Ok a w.

Definition bind {A B : Type} (m : M A) (k : A -> M B) : M B :=
  fun w => match m w with
           | Ok a w' => k a w'
           | Raised e w' => Raised e w'
           end.

Definition raise {A : Type} (e : exn) : M A := fun w => Raised e w.

Definition try_except {A : Type} (m : M A) (handler : exn -> M A) : M A :=
  fun w => match m w with
           | Ok a w' => Ok a w'
           | Raised e w' => handler e w'
           end.

Definition lift {A : Type} (r : result A) : M A :=
  match r with
  | Val a => ret a
  | Exc e => raise e
  end.

Declare Scope py_scope.
Delimit Scope py_scope with py.
Notation "x <- c1 ;; c2" := (bind c1 (fun x => c2))
  (at level 61, c1 at next level, right associativity) : py_scope.
Notation "c1 ;; c2" := (bind c1 (fun _ => c2))
  (at level 61, right associativity) : py_scope.
Notation "x <~ r1 ;; r2" := (rbind r1 (fun x => r2))
  (at level 61, r1 at next level, right associativity) : py_scope.
Local Open Scope py_scope.

Definition get_self : M monitor := fun w => Ok (self w) w.

Definition set_self (s : monitor) : M unit :=
  fun w => Ok tt {| self := s; files := files w; trace := trace w |}.

Definition emit (e : event) : M unit :=
  fun w => Ok tt {| self := self w; files := files w; trace := (trace w ++ [e])%list |}.

Definition set_current_price (x : float) : M unit :=
  s <- get_self ;; set_self (with_current_price s x).

Definition set_reference_price (x : float) : M unit :=
  s <- get_self ;; set_self (with_reference s x).

Definition set_price_change_threshold (x : float) : M unit :=
  s <- get_self ;; set_self (with_threshold s x).

Definition set_last_update (t : string) : M unit :=
  s <- get_self ;; set_self (with_last_update s t).

Definition set_running (b : bool) : M unit :=
  s <- get_self ;; set_self (with_running s b).

Definition set_menu (m : menu) : M unit :=
  s <- get_self ;; set_self (with_menu s m).

(** ** The methods of [EthereumPriceMonitor] *)

(** The attributes [__init__] sets before it calls [load_config]. *)
Definition initial : monitor :=
  {| current_price := 0; reference_price := 0; price_change_threshold := 1;
     last_update := ""; running := true; tray_icon := None |}.

Definition get_files : M disk := fun w => Ok (files w) w.

(** [os.path.exists(CONFIG_FILENAME)] *)
Definition path_exists (d : disk) : bool :=
  match contents d with
  | Missing => false
  | _ => true
  end.

(** [with open(CONFIG_FILENAME, "r") as f: config = json.load(f)] *)
Definition json_load (d : disk) : result config_file :=
  match contents d with
  | Missing => Exc OSError
  | Unreadable => Exc JSONDecodeError
  | c => Val c
  end.

(** [config[k]] *)
Definition config_item (c : config_file) (k : string) : result float :=
  match c with
  | Object d => match lookup k d with
                | Some x => Val x
                | None => Exc KeyError
                end
  | _ => Exc TypeError
  end.

Definition load_config : M unit :=
  d <- get_files ;;
  if path_exists d then
    try_except
      (config <- lift (json_load d) ;;
       r <- lift (config_item config "reference_price") ;;
       set_reference_price r ;;
       t <- lift (config_item config "price_change_threshold") ;;
       set_price_change_threshold t)
      (fun _ => ret tt)
  else ret tt.

(** [with open(CONFIG_FILENAME, "w") as f: json.dump(config, f)]: the file
    is replaced, or [open] raises and the file is as it was.  A write that
    fails once the file is open, leaving it cut short, is not covered. *)
Definition json_dump (c : list (string * float)) : M unit :=
  fun w =>
    if writable (files w) then
      Ok tt {| self := self w;
               files := {| contents := Object c; writable := writable (files w);
                           stdout_error := stdout_error (files w) |};
               trace := trace w |}
    else Raised OSError w.

Definition save_config : M unit :=
  s <- get_self ;;
  let config := [("reference_price", reference_price s);
                 ("price_change_threshold", price_change_threshold s)] in
  json_dump config ;;
  emit (Saved (reference_price s) (price_change_threshold s)).

(** [requests.get(url)]: an answer, or an exception when the exchange
    cannot be reached or the request times out. *)
Definition requests_get (net : http) : result (option json) :=
  match net with
  | NoResponse => Exc RequestException
  | Response body => Val body
  end.

(** [response.json()] *)
Definition response_json (body : option json) : result json :=
  match body with
  | Some data => Val data
  | None => Exc JSONDecodeError
  end.

(** Lines 55 to 59 up to the first assignment: the request, the decoding
    of the body, the test [data["code"] == "0"] and
    [float(data["data"][0]["last"])].  None of them touches the object.
    [Val None] is a body whose ["code"] is not ["0"]. *)
Definition fetched_price (net : http) : result (option float) :=
  response <~ requests_get net ;;
  data <~ response_json response ;;
  code <~ getitem data "code" ;;
  if eq_str code "0" then
    tickers <~ getitem data "data" ;;
    first <~ getitem0 tickers ;;
    last <~ getitem first "last" ;;
    price <~ to_float last ;;
    Val (Some price)
  else Val None.

(** [print(...)] at line 70: the message is written to standard output,
    or the write raises. *)
Definition print (e : exn) : M unit :=
  fun w =>
    match stdout_error (files w) with
    | None => emit (Printed e) w
    | Some failure => Raised failure w
    end.

(** [now] is [datetime.now().strftime("%H:%M:%S")].  An exception raised
    in the handler leaves the method. *)
Definition get_eth_price (net : http) (now : string) : M bool :=
  try_except
    (answer <- lift (fetched_price net) ;;
     match answer with
     | Some price =>
         set_current_price price ;;
         set_last_update now ;;
         s <- get_self ;;
         (if (reference_price s =? 0)%float then
            set_reference_price (current_price s) ;;
            save_config
          else ret tt) ;;
         ret true
     | None => ret false
     end)
    (fun e => print e ;; ret false).

Definition calculate_change (s : monitor) : float :=
  if (reference_price s =? 0)%float then 0%float
  else ((current_price s - reference_price s) / reference_price s * 100)%float.

(** The same method with Python's division, which can raise; it never
    does here (see [calculate_change_result_value]), which is why the rest
    of the program is written with [calculate_change]. *)
Definition calculate_change_result (s : monitor) : result float :=
  if (reference_price s =? 0)%float then Val 0%float
  else
    quotient <~ truediv (current_price s - reference_price s)%float
                        (reference_price s) ;;
    Val (quotient * 100)%float.

(** [abs(change) >= self.price_change_threshold] *)
Definition check_alert_condition (s : monitor) : bool :=
  let change := calculate_change s in
  (price_change_threshold s <=? abs change)%float.

Definition create_threshold_menu : list (label * action) :=
  [(Text "0.5%", SetAlertThreshold 0.5);
   (Text "1.0%", SetAlertThreshold 1);
   (Text "2.0%", SetAlertThreshold 2)].

Definition create_tray_menu (s : monitor) : menu :=
  [MenuItem (Text (if (0 <? current_price s)%float
                   then "ETH Price: $" ++ format_2f false (current_price s)
                   else "Loading price..."))
            NoAction;
   MenuItem (Text ("Reference: $" ++ format_2f false (reference_price s))) NoAction;
   MenuItem (Text ("Change: " ++ format_2f true (calculate_change s) ++ "%")) NoAction;
   SEPARATOR;
   MenuItem (Text "Set Current as Reference") SetCurrentAsReference;
   SubMenu (ThresholdText (price_change_threshold s)) create_threshold_menu;
   SEPARATOR;
   MenuItem (Text ("Last Update: " ++ last_update s)) NoAction;
   MenuItem (Text "Exit") ExitProgram].

(** [self.tray_icon.notify(message)]: the attribute must be there. *)
Definition notify (message : string) : M unit :=
  s <- get_self ;;
  match tray_icon s with
  | Some _ => emit (Notified message)
  | None => raise AttributeError
  end.

(** [self.tray_icon.menu = self.create_tray_menu()] *)
Definition assign_menu : M unit :=
  s <- get_self ;;
  set_menu (create_tray_menu s) ;;
  emit (MenuAssigned (create_tray_menu s)).

Definition alert_message (s : monitor) : string :=
  "Price Alert: ETH changed by " ++ format_2f false (calculate_change s)
  ++ "% and is now at $" ++ format_2f false (current_price s) ++ "!".

(** Lines 89 to 100: what the loop does once [get_eth_price] has
    returned [True]. *)
Definition on_price : M unit :=
  s <- get_self ;;
  (if check_alert_condition s then
     notify (alert_message s) ;;
     set_reference_price (current_price s) ;;
     save_config
   else ret tt) ;;
  s <- get_self ;;
  match tray_icon s with
  | Some _ => assign_menu
  | None => ret tt
  end.

(** One iteration of the loop of [monitor_price], the sleep apart. *)
Definition tick (net : http) (now : string) : M unit :=
  fetched <- get_eth_price net now ;;
  if fetched then on_price else ret tt.

(** The loop, unrolled over the answers of the exchange and the clock
    readings of its successive iterations, while no menu action
    interleaves. *)
Fixpoint monitor_price (polls : list (http * string)) : M unit :=
  match polls with
  | [] => ret tt
  | (net, now) :: later =>
      s <- get_self ;;
      if running s then tick net now ;; monitor_price later
      else ret tt
  end.

(** The menu callbacks; the icon they receive is [self.tray_icon]. *)
Definition set_current_price_as_reference : M unit :=
  s <- get_self ;;
  if (0 <? current_price s)%float then
    set_reference_price (current_price s) ;;
    save_config ;;
    assign_menu
  else ret tt.

Definition set_alert_threshold (threshold : float) : M unit :=
  set_price_change_threshold threshold ;;
  save_config ;;
  s <- get_self ;;
  match tray_icon s with
  | Some _ => assign_menu
  | None => ret tt
  end.

(** [self.running = False] and [icon.stop()]. *)
Definition exit_program : M unit :=
  set_running false ;;
  emit IconStopped.

(** The notifications among the events. *)
Fixpoint notifications (t : list event) : list string :=
  match t with
  | [] => []
  | Notified m :: t' => m :: notifications t'
  | _ :: t' => notifications t'
  end.

(** The number of menu assignments among the events. *)
Fixpoint menu_assignments (t : list event) : nat :=
  match t with
  | [] => O
  | MenuAssigned _ :: t' => S (menu_assignments t')
  | _ :: t' => menu_assignments t'
  end.

(** ** Worlds after an effect *)

(** The file [save_config] leaves for the settings of [s]. *)
Definition settings_of (s : monitor) : config_file :=
  Object [("reference_price", reference_price s);
          ("price_change_threshold", price_change_threshold s)].

(** The world once [save_config] has run with success. *)
Definition saved (w : world) : world :=
  {| self := self w;
     files := {| contents := settings_of (self w); writable := writable (files w);
                 stdout_error := stdout_error (files w) |};
     trace := (trace w ++ [Saved (reference_price (self w))
                                 (price_change_threshold (self w))])%list |}.

(** The world once the menu has been rebuilt and assigned, if there is an
    icon. *)
Definition refreshed (w : world) : world :=
  match tray_icon (self w) with
  | Some _ =>
      {| self := with_menu (self w) (create_tray_menu (self w));
         files := files w;
         trace := (trace w ++ [MenuAssigned (create_tray_menu (self w))])%list |}
  | None => w
  end.

Definition logged (w : world) (e : event) : world :=
  {| self := self w; files := files w; trace := (trace w ++ [e])%list |}.

Definition updated (w : world) (s : monitor) : world :=
  {| self := s; files := files w; trace := trace w |}.

(** How the handler of [get_eth_price] ends for the exception [e]: the
    message is printed and [False] returned, or the print raises. *)
Definition handled (w : world) (e : exn) : outcome bool :=
  match stdout_error (files w) with
  | None => Ok false (logged w (Printed e))
  | Some failure => Raised failure w
  end.

(** The world an outcome leaves, returned or raised. *)
Definition world_after {A : Type} (o : outcome A) : world :=
  match o with
  | Ok _ w => w
  | Raised _ w => w
  end.

(** The settings file holds exactly the two settings in memory. *)
Definition in_sync (w : world) : Prop :=
  contents (files w) = settings_of (self w).

(** The icon's menu is the one built from the present attributes. *)
Definition menu_current (w : world) : Prop :=
  tray_icon (self w) = Some (create_tray_menu (self w)).

(** No price can be read from the answer. *)
Definition no_price (net : http) : Prop :=
  forall price, fetched_price net <> Val (Some price).

(** ** Classes of floats *)

Definition is_nan (x : float) : bool :=
  match Prim2SF x with
  | S754_nan => true
  | _ => false
  end.

(** Neither NaN nor infinite. *)
Definition is_finite (x : float) : bool :=
  match Prim2SF x with
  | S754_zero _ | S754_finite _ _ _ => true
  | _ => false
  end.

Definition sf_not_nan (x : spec_float) : bool :=
  match x with
  | S754_nan => false
  | _ => true
  end.

(** ** Concrete states and answers *)

Local Open Scope float_scope.

Definition state (current reference threshold : float) : monitor :=
  {| current_price := current; reference_price := reference;
     price_change_threshold := threshold; last_update := ""; running := true;
     tray_icon := None |}.

(** A monitor whose icon is attached, with the given settings. *)
Definition attached (current reference threshold : float) : monitor :=
  with_menu (state current reference threshold)
            (create_tray_menu (state current reference threshold)).

Definition world_of (s : monitor) (c : config_file) (can_write : bool) : world :=
  {| self := s;
     files := {| contents := c; writable := can_write; stdout_error := None |};
     trace := [] |}.

(** The same world with a standard output on which every write raises
    [failure]. *)
Definition with_stdout_error (w : world) (failure : exn) : world :=
  {| self := self w;
     files := {| contents := contents (files w); writable := writable (files w);
                 stdout_error := Some failure |};
     trace := trace w |}.

(** A well-formed answer of the exchange whose last traded price is the
    string [last]. *)
Definition ticker (last : string) : http :=
  Response (Some (JObj [("code", JStr "0");
                        ("data", JArr [JObj [("last", JStr last)]])])).

Definition before_alert : world :=
  world_of (attached 2000 2000 1)
           (Object [("reference_price", 2000); ("price_change_threshold", 1)])
           true.

(** ** Proof support *)

Arguments calculate_change : simpl never.
Arguments check_alert_condition : simpl never.
Arguments create_tray_menu : simpl never.
Arguments alert_message : simpl never.

Ltac run :=
  unfold tick, on_price, get_eth_price, save_config, json_dump, notify,
    assign_menu, set_current_price, set_reference_price,
    set_price_change_threshold, set_last_update, set_menu, load_config,
    get_files, bind, try_except, lift, ret, raise, get_self, set_self, print,
    emit,
    saved, refreshed, logged, updated, handled, with_price, with_current_price,
    with_last_update, with_reference, with_threshold, with_running, with_menu,
    settings_of, set_running in *;
  simpl in *.

(** ** Facts about binary64 comparisons and arithmetic *)

Section Binary64.

Local Open Scope float_scope.

Lemma Prim2SF_zero : Prim2SF 0 = S754_zero false.
Proof. reflexivity. Qed.

Lemma Prim2SF_hundred : exists m e, Prim2SF 100 = S754_finite false m e.
Proof. eexists; eexists; reflexivity. Qed.

Lemma SFcompare_swap (x y : spec_float) :
  SFcompare y x = option_map CompOpp (SFcompare x y).
Proof.
  destruct x as [sx|sx| |sx mx ex], y as [sy|sy| |sy my ey]; simpl;
    try reflexivity; try (destruct sx; reflexivity); try (destruct sy; reflexivity);
    try (destruct sx, sy; reflexivity).
  destruct sx, sy; simpl; try reflexivity;
    rewrite (Z.compare_antisym ex ey); destruct (ex ?= ey)%Z; simpl; try reflexivity;
    rewrite (Pos.compare_cont_antisym mx my Eq); simpl;
    try rewrite CompOpp_involutive; reflexivity.
Qed.

Lemma ltb_zero_neqb (x : float) : (0 <? x) = true -> (x =? 0) = false.
Proof.
  rewrite ltb_spec, eqb_spec, Prim2SF_zero. unfold SFltb, SFeqb.
  destruct (Prim2SF x) as [s|s| |s m e]; simpl; try destruct s; congruence.
Qed.

Lemma eqb_leb (x y : float) : (x =? y) = true -> (y <=? x) = true.
Proof.
  rewrite eqb_spec, leb_spec. unfold SFeqb, SFleb.
  rewrite (SFcompare_swap (Prim2SF x) (Prim2SF y)).
  destruct (SFcompare (Prim2SF x) (Prim2SF y)) as [[| |]|]; simpl; congruence.
Qed.

Lemma leb_ltb_eqb (x y : float) :
  (x <=? y) = true <-> (x <? y) = true \/ (y =? x) = true.
Proof.
  rewrite leb_spec, ltb_spec, eqb_spec. unfold SFleb, SFltb, SFeqb.
  rewrite (SFcompare_swap (Prim2SF x) (Prim2SF y)).
  destruct (SFcompare (Prim2SF x) (Prim2SF y)) as [[| |]|]; simpl;
    intuition congruence.
Qed.

Lemma SFcompare_nan_r (x : spec_float) : SFcompare x S754_nan = None.
Proof. destruct x; reflexivity. Qed.

Lemma sub_self_spec (x : float) :
  Prim2SF (x - x) = match Prim2SF x with
                    | S754_zero _ | S754_finite _ _ _ => S754_zero false
                    | _ => S754_nan
                    end.
Proof.
  rewrite sub_spec. unfold SF64sub, SFsub.
  destruct (Prim2SF x) as [[|]|[|]| |s m e]; try reflexivity.
  cbv zeta. rewrite Z.sub_diag. reflexivity.
Qed.

(** With the reference equal to the current price the absolute change is
    [0.0], or NaN when that price is infinite or NaN. *)
Lemma change_at_reference (s : monitor) :
  reference_price s = current_price s ->
  Prim2SF (abs (calculate_change s)) = S754_zero false
  \/ Prim2SF (abs (calculate_change s)) = S754_nan.
Proof.
  unfold calculate_change. intros ->.
  destruct (current_price s =? 0) eqn:E; [left; reflexivity|].
  rewrite abs_spec, mul_spec, div_spec, sub_self_spec.
  rewrite eqb_spec, Prim2SF_zero in E.
  destruct (Prim2SF (current_price s)) as [z|i| |sg m e].
  - destruct z; discriminate E.
  - right. reflexivity.
  - right. reflexivity.
  - left. destruct sg; reflexivity.
Qed.

Lemma no_alert_at_reference (s : monitor) :
  reference_price s = current_price s ->
  (price_change_threshold s <=? 0) = false ->
  check_alert_condition s = false.
Proof.
  intros Href Hth. unfold check_alert_condition.
  rewrite leb_spec in *. rewrite Prim2SF_zero in Hth.
  destruct (change_at_reference s Href) as [-> | ->].
  - exact Hth.
  - unfold SFleb. rewrite SFcompare_nan_r. reflexivity.
Qed.

Lemma ltb_zero_not_leb (x : float) : (0 <? x) = true -> (x <=? 0) = false.
Proof.
  rewrite ltb_spec, leb_spec. unfold SFltb, SFleb.
  rewrite (SFcompare_swap (Prim2SF 0) (Prim2SF x)).
  destruct (SFcompare (Prim2SF 0) (Prim2SF x)) as [[| |]|]; simpl; congruence.
Qed.

(** *** Rounding never produces NaN *)

Lemma shr_1_nonneg (mrs : shr_record) :
  (0 <= shr_m mrs)%Z -> (0 <= shr_m (shr_1 mrs))%Z.
Proof.
  destruct mrs as [m r st]. destruct m as [|q|q]; simpl; try lia;
    destruct q; simpl; lia.
Qed.

Lemma iter_shr_1_nonneg (p : positive) :
  forall mrs, (0 <= shr_m mrs)%Z -> (0 <= shr_m (iter_pos shr_1 p mrs))%Z.
Proof.
  induction p as [p IH|p IH|]; intros mrs H; simpl.
  - apply IH, IH, shr_1_nonneg, H.
  - apply IH, IH, H.
  - apply shr_1_nonneg, H.
Qed.

Lemma shr_fexp_nonneg (m e : Z) (l : location) :
  (0 <= m)%Z -> (0 <= shr_m (fst (shr_fexp prec emax m e l)))%Z.
Proof.
  intros H. unfold shr_fexp, shr.
  assert (H0 : (0 <= shr_m (shr_record_of_loc m l))%Z)
    by (destruct l as [|[| |]]; exact H).
  destruct (fexp prec emax (Zdigits2 m + e) - e)%Z; simpl; trivial.
  apply iter_shr_1_nonneg, H0.
Qed.

Lemma round_nearest_even_nonneg (m : Z) (l : location) :
  (0 <= m)%Z -> (0 <= round_nearest_even m l)%Z.
Proof.
  intros H. destruct l as [|[| |]]; simpl; try lia.
  destruct (Z.even m); lia.
Qed.

Lemma binary_round_aux_not_nan (sx : bool) (mx ex : Z) (lx : location) :
  (0 <= mx)%Z -> sf_not_nan (binary_round_aux prec emax sx mx ex lx) = true.
Proof.
  intros H. unfold binary_round_aux.
  pose proof (shr_fexp_nonneg mx ex lx H) as H1.
  destruct (shr_fexp prec emax mx ex lx) as [mrs1 e1]. simpl in H1.
  pose proof (shr_fexp_nonneg _ e1 loc_Exact
                (round_nearest_even_nonneg _ (loc_of_shr_record mrs1) H1)) as H2.
  destruct (shr_fexp prec emax _ e1 loc_Exact) as [mrs2 e2]. simpl in H2.
  destruct (shr_m mrs2) as [|q|q]; try reflexivity.
  - destruct (e2 <=? emax - prec)%Z; reflexivity.
  - lia.
Qed.

Lemma binary_normalize_not_nan (m e : Z) :
  sf_not_nan (binary_normalize prec emax m e false) = true.
Proof.
  destruct m as [|q|q]; simpl; try reflexivity;
    unfold binary_round;
    destruct (shl_align q e (fexp prec emax (Z.pos (digits2_pos q) + e)));
    apply binary_round_aux_not_nan; lia.
Qed.

Lemma SF64sub_not_nan (x y : spec_float) (sy : bool) (my : positive) (ey : Z) :
  match x with S754_zero _ | S754_finite _ _ _ => True | _ => False end ->
  y = S754_finite sy my ey ->
  sf_not_nan (SF64sub x y) = true.
Proof.
  intros Hx ->. unfold SF64sub, SFsub.
  destruct x as [s|s| |s m e]; try contradiction; try reflexivity.
  apply binary_normalize_not_nan.
Qed.

Lemma SF64div_not_nan (x y : spec_float) (sy : bool) (my : positive) (ey : Z) :
  sf_not_nan x = true ->
  y = S754_finite sy my ey ->
  sf_not_nan (SF64div x y) = true.
Proof.
  intros Hx ->. unfold SF64div, SFdiv.
  destruct x as [s|s| |s m e]; try discriminate; try reflexivity.
  unfold SFdiv_core_binary.
  set (m' := match (e - ey - _)%Z with Z0 => _ | Zpos _ => _ | Zneg _ => _ end).
  assert (H : (0 <= m')%Z).
  { unfold m'. destruct (e - ey - _)%Z; try lia.
    apply Z.shiftl_nonneg. lia. }
  pose proof (Z.div_pos m' (Z.pos my) H ltac:(lia)) as Hq.
  unfold Z.div in Hq.
  destruct (Z.div_eucl m' (Z.pos my)) as [q r]. simpl in Hq.
  apply binary_round_aux_not_nan, Hq.
Qed.

Lemma SF64mul_not_nan (x y : spec_float) (sy : bool) (my : positive) (ey : Z) :
  sf_not_nan x = true ->
  y = S754_finite sy my ey ->
  sf_not_nan (SF64mul x y) = true.
Proof.
  intros Hx ->. unfold SF64mul, SFmul.
  destruct x as [s|s| |s m e]; try discriminate; try reflexivity.
  apply binary_round_aux_not_nan. lia.
Qed.

(** With finite prices the change is a number. *)
Lemma calculate_change_not_nan (s : monitor) :
  is_finite (current_price s) = true ->
  is_finite (reference_price s) = true ->
  is_nan (calculate_change s) = false.
Proof.
  unfold is_finite, is_nan, calculate_change. intros Hc Hr.
  destruct (reference_price s =? 0) eqn:E; [reflexivity|].
  rewrite eqb_spec, Prim2SF_zero in E.
  rewrite mul_spec, div_spec, sub_spec.
  destruct (Prim2SF (reference_price s)) as [z|i| |sr mr er] eqn:R;
    try discriminate Hr; [destruct z; discriminate E|].
  destruct Prim2SF_hundred as (m100 & e100 & H100).
  assert (H : sf_not_nan (SF64mul (SF64div (SF64sub (Prim2SF (current_price s))
                (S754_finite sr mr er)) (S754_finite sr mr er)) (Prim2SF 100)) = true).
  { apply (SF64mul_not_nan _ _ false m100 e100); [|exact H100].
    apply (SF64div_not_nan _ _ sr mr er); [|reflexivity].
    apply (SF64sub_not_nan _ _ sr mr er); [|reflexivity].
    destruct (Prim2SF (current_price s)); try discriminate Hc; exact I. }
  destruct (SF64mul _ _); try reflexivity. discriminate H.
Qed.

Lemma not_leb_ltb (x y : float) :
  is_nan x = false -> is_nan y = false ->
  (y <=? x) = false -> (x <? y) = true.
Proof.
  unfold is_nan. rewrite leb_spec, ltb_spec. unfold SFleb, SFltb.
  rewrite (SFcompare_swap (Prim2SF x) (Prim2SF y)).
  destruct (Prim2SF x) as [sx|sx| |sx mx ex], (Prim2SF y) as [sy|sy| |sy my ey];
    try discriminate; intros _ _;
    match goal with
    | |- context [SFcompare ?a ?b] => destruct (SFcompare a b) as [[| |]|] eqn:C
    end; simpl; try congruence; simpl in C; try discriminate C;
    destruct sx; try destruct sy; discriminate C.
Qed.

Lemma abs_nan (x : float) : is_nan (abs x) = is_nan x.
Proof.
  unfold is_nan. rewrite abs_spec. destruct (Prim2SF x); reflexivity.
Qed.

Lemma ltb_zero_not_nan (x : float) : (0 <? x) = true -> is_nan x = false.
Proof.
  unfold is_nan. rewrite ltb_spec, Prim2SF_zero. unfold SFltb.
  destruct (Prim2SF x); simpl; congruence.
Qed.

End Binary64.

(** ** What one iteration does, case by case *)

Lemma save_config_cases (w : world) :
  save_config w = if writable (files w) then Ok tt (saved w)
                  else Raised OSError w.
Proof.
  destruct w as [s [c wr out] t]. run. destruct wr; reflexivity.
Qed.

Lemma handled_not_true (w w1 : world) (e : exn) : handled w e <> Ok true w1.
Proof. unfold handled. destruct (stdout_error (files w)); discriminate. Qed.

Lemma handled_false (w w1 : world) (e : exn) :
  handled w e = Ok false w1 -> w1 = logged w (Printed e).
Proof.
  unfold handled. destruct (stdout_error (files w)); intros H;
    [discriminate H | injection H as <-; reflexivity].
Qed.

Ltac no_fetch H :=
  first [discriminate H | destruct (handled_not_true _ _ _ H)].

(** [get_eth_price] by the outcome of the request. *)
Lemma get_eth_price_cases (net : http) (now : string) (w : world) :
  get_eth_price net now w =
  match fetched_price net with
  | Exc e => handled w e
  | Val None => Ok false w
  | Val (Some price) =>
      let w1 := updated w (with_price (self w) price now) in
      if (reference_price (self w) =? 0)%float then
        let w2 := updated w1 (with_reference (self w1) price) in
        if writable (files w) then Ok true (saved w2)
        else handled w2 OSError
      else Ok true w1
  end.
Proof.
  destruct w as [s [c wr out] t]. run.
  destruct (fetched_price net) as [[price|]|e]; simpl; try reflexivity.
  - destruct (reference_price s =? 0)%float; simpl; try reflexivity.
    destruct wr; simpl; [reflexivity|]. destruct out; reflexivity.
  - destruct out; reflexivity.
Qed.

(** Nothing but the print of the handler can make [get_eth_price]
    raise. *)
Lemma get_eth_price_returns (net : http) (now : string) (w : world) :
  stdout_error (files w) = None ->
  exists fetched w', get_eth_price net now w = Ok fetched w'.
Proof.
  intros Hout. rewrite get_eth_price_cases. unfold handled.
  destruct (fetched_price net) as [[price|]|e]; cbv zeta;
    try destruct (reference_price (self w) =? 0)%float;
    try destruct (writable (files w)); simpl; rewrite ?Hout; eauto.
Qed.

(** The body of [if self.get_eth_price():] by the alert condition. *)
Lemma on_price_cases (w : world) :
  on_price w =
  if check_alert_condition (self w) then
    match tray_icon (self w) with
    | None => Raised AttributeError w
    | Some _ =>
        let w1 := logged w (Notified (alert_message (self w))) in
        let w2 := updated w1 (with_reference (self w) (current_price (self w))) in
        if writable (files w) then Ok tt (refreshed (saved w2))
        else Raised OSError w2
    end
  else Ok tt (refreshed w).
Proof.
  destruct w as [[cur ref th upd rn [m|]] [c wr] t]; run;
    match goal with
    | |- context [check_alert_condition ?s] => destruct (check_alert_condition s)
    end; simpl; try reflexivity.
  destruct wr; reflexivity.
Qed.

Lemma tick_cases (net : http) (now : string) (w : world) :
  tick net now w =
  match get_eth_price net now w with
  | Ok true w1 => on_price w1
  | Ok false w1 => Ok tt w1
  | Raised e w1 => Raised e w1
  end.
Proof.
  unfold tick, bind. destruct (get_eth_price net now w) as [[|] w1|e w1]; reflexivity.
Qed.

Lemma notifications_app (t u : list event) :
  notifications (t ++ u) = (notifications t ++ notifications u)%list.
Proof.
  induction t as [|e t IH]; simpl; [reflexivity|].
  destruct e; simpl; rewrite IH; reflexivity.
Qed.

Lemma menu_assignments_app (t u : list event) :
  menu_assignments (t ++ u) = (menu_assignments t + menu_assignments u)%nat.
Proof.
  induction t as [|e t IH]; simpl; [reflexivity|].
  destruct e; simpl; rewrite IH; reflexivity.
Qed.

Lemma notifications_refreshed (w : world) :
  notifications (trace (refreshed w)) = notifications (trace w).
Proof.
  unfold refreshed. destruct (tray_icon (self w)); simpl; [|reflexivity].
  rewrite notifications_app. simpl. apply app_nil_r.
Qed.

Lemma refreshed_settings (w : world) :
  current_price (self (refreshed w)) = current_price (self w)
  /\ reference_price (self (refreshed w)) = reference_price (self w)
  /\ price_change_threshold (self (refreshed w)) = price_change_threshold (self w)
  /\ last_update (self (refreshed w)) = last_update (self w)
  /\ files (refreshed w) = files w.
Proof.
  unfold refreshed. destruct (tray_icon (self w)); simpl; auto.
Qed.

Lemma calculate_change_ext (s s' : monitor) :
  current_price s' = current_price s ->
  reference_price s' = reference_price s ->
  calculate_change s' = calculate_change s.
Proof. unfold calculate_change. intros -> ->. reflexivity. Qed.

Lemma check_alert_condition_ext (s s' : monitor) :
  current_price s' = current_price s ->
  reference_price s' = reference_price s ->
  price_change_threshold s' = price_change_threshold s ->
  check_alert_condition s' = check_alert_condition s.
Proof.
  unfold check_alert_condition. intros Hc Hr ->.
  rewrite (calculate_change_ext s s' Hc Hr). reflexivity.
Qed.

(** ** The percentage and the alert decision *)

Lemma calculate_change_result_value (s : monitor) :
  calculate_change_result s = Val (calculate_change s).
Proof.
  unfold calculate_change_result, calculate_change, truediv.
  destruct (reference_price s =? 0); reflexivity.
Qed.

(** C1: with a reference above zero the change is
    [((current - reference) / reference) * 100], computed as the program
    computes it; with a reference of [0.0] it is [0.0]; and in every state
    the method returns a value, so that no division by zero is performed. *)
Theorem calculate_change_formula (s : monitor) :
  ((0 <? reference_price s) = true ->
   calculate_change_result s
   = Val ((current_price s - reference_price s) / reference_price s * 100))
  /\ ((reference_price s =? 0) = true -> calculate_change_result s = Val 0)
  /\ calculate_change_result s = Val (calculate_change s).
Proof.
  split; [|split].
  - intros H. unfold calculate_change_result, truediv.
    rewrite (ltb_zero_neqb _ H). reflexivity.
  - intros H. unfold calculate_change_result. rewrite H. reflexivity.
  - apply calculate_change_result_value.
Qed.

Lemma calculate_change_formula_witness :
  calculate_change_result (state 2010 2000 1) = Val 0.5
  /\ calculate_change_result (state 2010 0 1) = Val 0.
Proof.
  destruct (calculate_change_formula (state 2010 2000 1)) as [H _].
  destruct (calculate_change_formula (state 2010 0 1)) as (_ & H0 & _).
  split.
  - rewrite H by reflexivity. reflexivity.
  - apply H0. reflexivity.
Defined.

(** C2: the alert condition holds exactly when the absolute change is at
    least the threshold, that is when it is above the threshold or equal to
    it; in particular it holds when the two are equal. *)
Theorem check_alert_condition_iff (s : monitor) :
  (check_alert_condition s = true
   <-> (price_change_threshold s <=? abs (calculate_change s)) = true)
  /\ (check_alert_condition s = true
      <-> (price_change_threshold s <? abs (calculate_change s)) = true
          \/ (abs (calculate_change s) =? price_change_threshold s) = true)
  /\ ((abs (calculate_change s) =? price_change_threshold s) = true ->
      check_alert_condition s = true).
Proof.
  unfold check_alert_condition. split; [tauto | split].
  - apply leb_ltb_eqb.
  - apply eqb_leb.
Qed.

Lemma check_alert_condition_iff_witness :
  check_alert_condition (state 2010 2000 0.5) = true.
Proof.
  apply (proj2 (proj2 (check_alert_condition_iff (state 2010 2000 0.5)))).
  reflexivity.
Defined.

(** ** The first fetch *)

(** C3, as the program has it: a first successful fetch with the reference
    at [0.0] sets the reference to the fetched price, writes the settings
    file and raises no notification, for every threshold that is not at or
    below zero. *)
Theorem bootstrap_sets_reference_without_alert
    (net : http) (now : string) (w w1 : world) :
  (reference_price (self w) =? 0) = true ->
  (price_change_threshold (self w) <=? 0) = false ->
  get_eth_price net now w = Ok true w1 ->
  exists w',
    tick net now w = Ok tt w'
    /\ fetched_price net = Val (Some (current_price (self w')))
    /\ reference_price (self w') = current_price (self w')
    /\ price_change_threshold (self w') = price_change_threshold (self w)
    /\ contents (files w') = settings_of (self w')
    /\ notifications (trace w') = notifications (trace w).
Proof.
  intros Href Hth Hfetch. rewrite tick_cases.
  rewrite get_eth_price_cases in *.
  destruct (fetched_price net) as [[price|]|e]; try no_fetch Hfetch.
  cbv zeta in *. rewrite Href in *.
  destruct (writable (files w)); try no_fetch Hfetch.
  clear Hfetch. rewrite on_price_cases.
  rewrite no_alert_at_reference by (simpl; trivial).
  eexists. split; [reflexivity|].
  destruct (refreshed_settings
              (saved (updated (updated w (with_price (self w) price now))
                        (with_reference
                           (self (updated w (with_price (self w) price now)))
                           price))))
    as (Hc & Hr & Ht & _ & Hf).
  rewrite notifications_refreshed.
  unfold settings_of. rewrite Hc, Hr, Ht, Hf. simpl.
  repeat split; trivial.
  rewrite notifications_app. simpl. apply app_nil_r.
Qed.

Lemma bootstrap_sets_reference_without_alert_witness :
  exists w',
    tick (ticker "1800") "12:00:00" (world_of initial Missing true) = Ok tt w'
    /\ fetched_price (ticker "1800") = Val (Some (current_price (self w')))
    /\ reference_price (self w') = current_price (self w')
    /\ price_change_threshold (self w') = 1
    /\ contents (files w') = settings_of (self w')
    /\ notifications (trace w') = [].
Proof.
  eapply (bootstrap_sets_reference_without_alert
            (ticker "1800") "12:00:00" (world_of initial Missing true));
    [reflexivity | reflexivity | vm_compute; reflexivity].
Defined.

(** With a threshold of [0.0], as a settings file may hold it, the first
    fetch raises a notification. *)
Example bootstrap_alert_at_zero_threshold :
  exists w',
    tick (ticker "1800") "12:00:00"
         (world_of (attached 0 0 0)
                   (Object [("reference_price", 0); ("price_change_threshold", 0)])
                   true)
    = Ok tt w'
    /\ reference_price (self w') = 1800
    /\ notifications (trace w')
       = ["Price Alert: ETH changed by 0.00% and is now at $1800.00!"].
Proof.
  eexists. split; [vm_compute; reflexivity|]. split; reflexivity.
Qed.

(** ** An alert moves the reference *)

(** C4, as the program has it: when a successful fetch meets the alert
    condition and the iteration runs to its end, the notification is
    emitted, then the reference is set to the current price, then the
    settings file is written with it; and with a threshold above zero the
    next iteration, fetching the same price, raises no notification. *)
Theorem alert_resets_reference
    (net : http) (now : string) (w w1 w' : world) :
  get_eth_price net now w = Ok true w1 ->
  check_alert_condition (self w1) = true ->
  tick net now w = Ok tt w' ->
  (current_price (self w') = current_price (self w1)
   /\ reference_price (self w') = current_price (self w1)
   /\ contents (files w') = settings_of (self w')
   /\ exists later,
        trace w' = (trace w1
                    ++ Notified (alert_message (self w1))
                    :: Saved (current_price (self w1))
                             (price_change_threshold (self w1))
                    :: later)%list)
  /\ ((0 <? price_change_threshold (self w')) = true ->
      forall (net2 : http) (now2 : string),
        fetched_price net2 = Val (Some (current_price (self w'))) ->
        exists w'',
          tick net2 now2 w' = Ok tt w''
          /\ reference_price (self w'') = reference_price (self w')
          /\ notifications (trace w'') = notifications (trace w')).
Proof.
  intros Hfetch Halert Htick.
  rewrite tick_cases, Hfetch, on_price_cases, Halert in Htick.
  destruct (tray_icon (self w1)) as [m|] eqn:Hicon; try discriminate Htick.
  cbv zeta in Htick.
  destruct (writable (files w1)) eqn:Hwr; try discriminate Htick.
  injection Htick as <-.
  match goal with
  | |- context [refreshed ?x] =>
      destruct (refreshed_settings x) as (Hc & Hr & Ht & _ & Hf);
      set (w2 := x) in *
  end.
  assert (Hw2 : writable (files w2) = true) by exact Hwr.
  split.
  - simpl in Hc, Hr, Ht, Hf. unfold settings_of. rewrite Hc, Hr, Ht, Hf.
    repeat split; try reflexivity.
    unfold refreshed. simpl. rewrite Hicon. simpl.
    eexists. rewrite <- !app_assoc. simpl. reflexivity.
  - intros Hth net2 now2 Hsame.
    rewrite tick_cases, get_eth_price_cases, Hsame. cbv zeta.
    assert (Hwr' : writable (files (refreshed w2)) = true) by (rewrite Hf; exact Hw2).
    assert (Heq : reference_price (self (refreshed w2))
                  = current_price (self (refreshed w2)))
      by (rewrite Hc, Hr; reflexivity).
    assert (Hle : (price_change_threshold (self (refreshed w2)) <=? 0) = false)
      by (apply ltb_zero_not_leb, Hth).
    destruct (reference_price (self (refreshed w2)) =? 0).
    + rewrite Hwr'. rewrite on_price_cases.
      rewrite no_alert_at_reference by (simpl; trivial).
      eexists. split; [reflexivity|]. rewrite notifications_refreshed.
      match goal with
      | |- context [refreshed ?x] =>
          destruct (refreshed_settings x) as (_ & Hr2 & _)
      end.
      rewrite Hr2. simpl. split; [symmetry; exact Heq|].
      rewrite notifications_app. simpl. apply app_nil_r.
    + rewrite on_price_cases.
      rewrite no_alert_at_reference by (simpl; trivial).
      eexists. split; [reflexivity|]. rewrite notifications_refreshed.
      match goal with
      | |- context [refreshed ?x] =>
          destruct (refreshed_settings x) as (_ & Hr2 & _)
      end.
      rewrite Hr2. simpl. split; reflexivity.
Qed.

Lemma alert_resets_reference_witness :
  exists w',
    tick (ticker "2021") "12:00:10" before_alert = Ok tt w'
    /\ reference_price (self w') = 2021
    /\ contents (files w')
       = Object [("reference_price", 2021); ("price_change_threshold", 1)]
    /\ notifications (trace w')
       = ["Price Alert: ETH changed by 1.05% and is now at $2021.00!"]
    /\ exists w'',
         tick (ticker "2021") "12:00:20" w' = Ok tt w''
         /\ reference_price (self w'') = reference_price (self w')
         /\ notifications (trace w'') = notifications (trace w').
Proof.
  eexists. split; [vm_compute; reflexivity|].
  repeat (split; [reflexivity|]).
  eapply (alert_resets_reference (ticker "2021") "12:00:10" before_alert);
    [vm_compute; reflexivity | reflexivity | vm_compute; reflexivity
    | reflexivity | reflexivity].
Defined.

(** When the settings file cannot be written the alert is raised and the
    reference moves in memory, but the file keeps the old reference and
    the iteration ends with the exception. *)
Example alert_not_persisted_when_unwritable :
  exists w',
    tick (ticker "2021") "12:00:10"
         (world_of (attached 2000 2000 1)
                   (Object [("reference_price", 2000); ("price_change_threshold", 1)])
                   false)
    = Raised OSError w'
    /\ reference_price (self w') = 2021
    /\ contents (files w')
       = Object [("reference_price", 2000); ("price_change_threshold", 1)]
    /\ notifications (trace w')
       = ["Price Alert: ETH changed by 1.05% and is now at $2021.00!"].
Proof.
  eexists. split; [vm_compute; reflexivity|]. repeat split; reflexivity.
Qed.

(** ** A failed fetch *)

(** C6, as the program has it: when the request fails, the body is not
    the expected JSON, its ["code"] is not ["0"] or the price does not
    parse, the prices, the threshold, the time of the last update and the
    settings file are as before, no notification is raised and no menu
    assigned, however [get_eth_price] ends; if it returns, it returns
    [False] and the iteration ends there without raising; and it does
    return, so that no exception reaches the caller, when the print of
    the error message succeeds, and always when the cause is the
    ["code"], for which nothing is printed. *)
Theorem failed_fetch_changes_nothing (net : http) (now : string) (w : world) :
  no_price net ->
  (self (world_after (get_eth_price net now w)) = self w
   /\ files (world_after (get_eth_price net now w)) = files w
   /\ notifications (trace (world_after (get_eth_price net now w)))
      = notifications (trace w)
   /\ menu_assignments (trace (world_after (get_eth_price net now w)))
      = menu_assignments (trace w))
  /\ world_after (tick net now w) = world_after (get_eth_price net now w)
  /\ (forall fetched w',
        get_eth_price net now w = Ok fetched w' ->
        fetched = false /\ tick net now w = Ok tt w')
  /\ (stdout_error (files w) = None \/ fetched_price net = Val None ->
      exists w', get_eth_price net now w = Ok false w'
                 /\ tick net now w = Ok tt w').
Proof.
  intros Hnone. unfold no_price in Hnone.
  rewrite tick_cases, get_eth_price_cases. unfold handled.
  destruct (fetched_price net) as [[price|]|e].
  - destruct (Hnone price). reflexivity.
  - split; [repeat split; reflexivity|].
    split; [reflexivity|]. split.
    + intros fetched w' H. injection H as <- <-. split; reflexivity.
    + intros _. exists w. split; reflexivity.
  - destruct (stdout_error (files w)) as [failure|]; simpl.
    + split; [repeat split; reflexivity|].
      split; [reflexivity|]. split.
      * intros fetched w' H. discriminate H.
      * intros [H | H]; discriminate H.
    + rewrite notifications_app, menu_assignments_app. simpl.
      rewrite app_nil_r, Nat.add_0_r.
      split; [repeat split; reflexivity|].
      split; [reflexivity|]. split.
      * intros fetched w' H. injection H as <- <-. split; reflexivity.
      * intros _. eexists. split; reflexivity.
Qed.

Lemma failed_fetch_changes_nothing_witness :
  exists w',
    get_eth_price (ticker "n/a") "12:00:10" before_alert = Ok false w'
    /\ tick (ticker "n/a") "12:00:10" before_alert = Ok tt w'
    /\ self (world_after (get_eth_price (ticker "n/a") "12:00:10" before_alert))
       = self before_alert
    /\ files (world_after (get_eth_price (ticker "n/a") "12:00:10" before_alert))
       = files before_alert.
Proof.
  assert (Hnone : no_price (ticker "n/a"))
    by (intros price; vm_compute; discriminate).
  destruct (failed_fetch_changes_nothing
              (ticker "n/a") "12:00:10" before_alert Hnone)
    as ((Hs & Hf & _) & _ & _ & H).
  destruct (H (or_introl eq_refl)) as (w' & Hget & Htick).
  exists w'. auto.
Defined.

(** The causes the specification lists all leave [fetched_price] without a
    price. *)
Lemma no_price_without_response : fetched_price NoResponse = Exc RequestException.
Proof. reflexivity. Qed.

Lemma no_price_without_json : fetched_price (Response None) = Exc JSONDecodeError.
Proof. reflexivity. Qed.

Lemma no_price_without_success_code (data : json) (code : json) :
  getitem data "code" = Val code -> eq_str code "0" = false ->
  fetched_price (Response (Some data)) = Val None.
Proof.
  intros Hcode Hne. unfold fetched_price. simpl. rewrite Hcode. simpl.
  rewrite Hne. reflexivity.
Qed.

(** When the request fails and standard output cannot be written, the
    print in the handler raises: the exception leaves [get_eth_price] and
    ends the iteration. *)
Example failed_fetch_raises_when_print_fails :
  fetched_price NoResponse = Exc RequestException
  /\ get_eth_price NoResponse "12:00:10" (with_stdout_error before_alert OSError)
     = Raised OSError (with_stdout_error before_alert OSError)
  /\ tick NoResponse "12:00:10" (with_stdout_error before_alert OSError)
     = Raised OSError (with_stdout_error before_alert OSError).
Proof. repeat split; vm_compute; reflexivity. Qed.

(** When the first fetch finds the settings file unwritable, the write's
    exception is handled like a failed request: [get_eth_price] returns
    [False] although it has already stored the price, the time and the
    new reference. *)
Example failed_fetch_after_update :
  get_eth_price (ticker "1800") "12:00:00" (world_of initial Missing false)
  = Ok false
       {| self := {| current_price := 1800; reference_price := 1800;
                     price_change_threshold := 1; last_update := "12:00:00";
                     running := true; tray_icon := None |};
          files := files (world_of initial Missing false);
          trace := [Printed OSError] |}.
Proof. vm_compute. reflexivity. Qed.

(** ** Refreshing the menu *)

(** C7, as the program has it: with an icon attached, an iteration that
    runs to its end rebuilds and assigns the menu after a successful
    fetch, and assigns none after a failed one. *)
Theorem menu_refreshed_after_successful_fetch
    (net : http) (now : string) (w w' : world) (m : menu) :
  tray_icon (self w) = Some m ->
  tick net now w = Ok tt w' ->
  (forall w1, get_eth_price net now w = Ok true w1 ->
     tray_icon (self w') = Some (create_tray_menu (self w'))
     /\ (exists t, trace w' = (t ++ [MenuAssigned (create_tray_menu (self w'))])%list)
     /\ menu_assignments (trace w') = S (menu_assignments (trace w)))
  /\ (forall w1, get_eth_price net now w = Ok false w1 ->
     tray_icon (self w') = Some m
     /\ menu_assignments (trace w') = menu_assignments (trace w)).
Proof.
  intros Hicon Htick. rewrite tick_cases in Htick.
  rewrite get_eth_price_cases in *.
  split; intros w1 Hfetch; rewrite Hfetch in Htick.
  - rewrite on_price_cases in Htick.
    assert (Hicon1 : tray_icon (self w1) = Some m
                     /\ menu_assignments (trace w1) = menu_assignments (trace w)).
    { destruct (fetched_price net) as [[price|]|e]; try no_fetch Hfetch.
      cbv zeta in Hfetch.
      destruct (reference_price (self w) =? 0);
        [destruct (writable (files w)); try no_fetch Hfetch|];
        injection Hfetch as <-; simpl; split; trivial.
      rewrite menu_assignments_app. simpl. apply Nat.add_0_r. }
    destruct Hicon1 as [Hicon1 Hcount].
    rewrite Hicon1 in Htick. cbv zeta in Htick.
    destruct (check_alert_condition (self w1));
      [destruct (writable (files w1)); try discriminate Htick|];
      injection Htick as <-; unfold refreshed; simpl; rewrite Hicon1; simpl;
      (split; [reflexivity|]); (split; [eexists; reflexivity|]);
      rewrite !menu_assignments_app; simpl; rewrite Hcount; lia.
  - injection Htick as <-.
    destruct (fetched_price net) as [[price|]|e]; cbv zeta in Hfetch.
    + destruct (reference_price (self w) =? 0);
        [destruct (writable (files w))|]; try discriminate Hfetch.
      apply handled_false in Hfetch. subst w1. simpl. split; trivial.
      rewrite menu_assignments_app. simpl. apply Nat.add_0_r.
    + injection Hfetch as <-. split; trivial.
    + apply handled_false in Hfetch. subst w1. simpl. split; trivial.
      rewrite menu_assignments_app. simpl. apply Nat.add_0_r.
Qed.

Lemma menu_refreshed_after_successful_fetch_witness :
  exists w',
    tick (ticker "2010") "12:00:10" before_alert = Ok tt w'
    /\ tray_icon (self w') = Some (create_tray_menu (self w'))
    /\ menu_assignments (trace w') = 1%nat.
Proof.
  eexists. split; [vm_compute; reflexivity|].
  match goal with
  | |- tray_icon (self ?w') = _ /\ _ =>
      assert (Htick : tick (ticker "2010") "12:00:10" before_alert = Ok tt w')
        by (vm_compute; reflexivity);
      destruct (menu_refreshed_after_successful_fetch
                  (ticker "2010") "12:00:10" before_alert w' _ eq_refl Htick)
        as [H _]
  end.
  edestruct H as (H1 & _ & H2); [vm_compute; reflexivity|].
  split; [exact H1 | exact H2].
Defined.

(** With an icon attached, an iteration whose request fails assigns no
    menu. *)
Example no_refresh_after_failed_fetch :
  tick NoResponse "12:00:10" before_alert
  = Ok tt {| self := self before_alert; files := files before_alert;
             trace := [Printed RequestException] |}.
Proof. vm_compute. reflexivity. Qed.

(** ** The change stays within the threshold *)

Lemma within_threshold (s : monitor) :
  check_alert_condition s = false ->
  is_finite (current_price s) = true ->
  is_finite (reference_price s) = true ->
  (0 <? price_change_threshold s) = true ->
  (abs (calculate_change s) <? price_change_threshold s) = true.
Proof.
  intros Hquiet Hc Hr Hth. apply not_leb_ltb.
  - rewrite abs_nan. apply calculate_change_not_nan; assumption.
  - apply ltb_zero_not_nan, Hth.
  - exact Hquiet.
Qed.

Lemma within_threshold_refreshed (w : world) :
  check_alert_condition (self w) = false ->
  is_finite (current_price (self w)) = true ->
  is_finite (reference_price (self w)) = true ->
  (0 <? price_change_threshold (self w)) = true ->
  (abs (calculate_change (self (refreshed w)))
   <? price_change_threshold (self (refreshed w))) = true.
Proof.
  intros Hquiet Hc Hr Hth.
  destruct (refreshed_settings w) as (Hc' & Hr' & Ht' & _).
  rewrite (calculate_change_ext (self w) _ Hc' Hr'), Ht'.
  apply within_threshold; assumption.
Qed.

(** C10, as the program has it: at the end of an iteration that fetched a
    price and ran to its end, with a threshold above zero and with the
    fetched price and the reference both finite, the absolute change is
    strictly below the threshold. *)
Theorem change_within_threshold_after_tick
    (net : http) (now : string) (w w1 w' : world) :
  (0 <? price_change_threshold (self w)) = true ->
  is_finite (reference_price (self w)) = true ->
  get_eth_price net now w = Ok true w1 ->
  is_finite (current_price (self w1)) = true ->
  tick net now w = Ok tt w' ->
  (abs (calculate_change (self w')) <? price_change_threshold (self w')) = true.
Proof.
  intros Hth Href Hfetch Hcur Htick.
  rewrite tick_cases, Hfetch, on_price_cases in Htick.
  assert (H1 : price_change_threshold (self w1) = price_change_threshold (self w)
               /\ is_finite (reference_price (self w1)) = true).
  { rewrite get_eth_price_cases in Hfetch.
    destruct (fetched_price net) as [[price|]|e]; try no_fetch Hfetch.
    cbv zeta in Hfetch.
    destruct (reference_price (self w) =? 0);
      [destruct (writable (files w)); try no_fetch Hfetch|];
      injection Hfetch as <-; simpl in *; auto. }
  destruct H1 as [Ht1 Hr1]. rewrite <- Ht1 in Hth.
  destruct (check_alert_condition (self w1)) eqn:Halert.
  - destruct (tray_icon (self w1)); try discriminate Htick.
    cbv zeta in Htick.
    destruct (writable (files w1)); try discriminate Htick.
    injection Htick as <-.
    apply within_threshold_refreshed; simpl; trivial.
    apply no_alert_at_reference; simpl; trivial.
    apply ltb_zero_not_leb, Hth.
  - injection Htick as <-.
    apply within_threshold_refreshed; assumption.
Qed.

Lemma change_within_threshold_after_tick_witness :
  exists w',
    tick (ticker "2021") "12:00:10" before_alert = Ok tt w'
    /\ (abs (calculate_change (self w')) <? price_change_threshold (self w')) = true.
Proof.
  eexists. split; [vm_compute; reflexivity|].
  eapply (change_within_threshold_after_tick
            (ticker "2021") "12:00:10" before_alert);
    [reflexivity | reflexivity | vm_compute; reflexivity | reflexivity
    | vm_compute; reflexivity].
Defined.

(** A price string that denotes an infinity is accepted by [float]; the
    first fetch then makes it the reference, the change is NaN and is not
    below the threshold. *)
Example change_not_within_threshold_for_infinite_price :
  exists w1 w',
    get_eth_price (ticker "1e999") "12:00:00" (world_of initial Missing true)
    = Ok true w1
    /\ tick (ticker "1e999") "12:00:00" (world_of initial Missing true) = Ok tt w'
    /\ (0 <? price_change_threshold (self w')) = true
    /\ (abs (calculate_change (self w')) <? price_change_threshold (self w')) = false.
Proof.
  eexists. eexists. split; [vm_compute; reflexivity|].
  split; [vm_compute; reflexivity|]. split; reflexivity.
Qed.

(** ** Loading the settings *)

Lemma load_config_never_raises (w : world) :
  exists w', load_config w = Ok tt w'.
Proof.
  destruct w as [s [c wr] t]. unfold load_config, get_files, bind. simpl.
  destruct c as [| | |d]; run; eauto.
  destruct (lookup "reference_price" d); simpl; eauto.
  destruct (lookup "price_change_threshold" d); simpl; eauto.
Qed.

(** A file that is missing, that cannot be read as JSON, that holds no
    object or whose object has no ["reference_price"] leaves the
    attributes as they were. *)
Lemma load_config_unchanged (w : world) :
  match contents (files w) with
  | Object d => lookup "reference_price" d = None
  | _ => True
  end ->
  load_config w = Ok tt w.
Proof.
  destruct w as [s [c wr] t]. unfold load_config, get_files, bind. simpl.
  destruct c as [| | |d]; run; trivial.
  intros ->. reflexivity.
Qed.

Lemma load_config_complete (w : world) (d : list (string * float)) (r t : float) :
  contents (files w) = Object d ->
  lookup "reference_price" d = Some r ->
  lookup "price_change_threshold" d = Some t ->
  load_config w
  = Ok tt (updated w (with_threshold (with_reference (self w) r) t)).
Proof.
  destruct w as [s [c wr] tr]. simpl. intros -> Hr Ht.
  unfold load_config, get_files, bind. run. rewrite Hr. simpl. rewrite Ht.
  reflexivity.
Qed.

(** C5 at a file that lacks the threshold: [load_config] raises nothing,
    but the reference in memory has been replaced by the file's. *)
Example load_config_half_loaded :
  load_config (world_of initial (Object [("reference_price", 2500)]) true)
  = Ok tt (world_of (with_reference initial 2500)
                    (Object [("reference_price", 2500)]) true).
Proof. vm_compute. reflexivity. Qed.

(** ** The text of a notification *)

(** Every notification an iteration raises is the alert message of the
    state the fetch has left. *)
Lemma notification_text (net : http) (now : string) (w w1 w' : world) :
  get_eth_price net now w = Ok true w1 ->
  tick net now w = Ok tt w' ->
  notifications (trace w') = notifications (trace w1)
  \/ notifications (trace w')
     = (notifications (trace w1) ++ [alert_message (self w1)])%list.
Proof.
  intros Hfetch Htick. rewrite tick_cases, Hfetch, on_price_cases in Htick.
  destruct (check_alert_condition (self w1)).
  - destruct (tray_icon (self w1)); try discriminate Htick.
    cbv zeta in Htick.
    destruct (writable (files w1)); try discriminate Htick.
    injection Htick as <-. right.
    rewrite notifications_refreshed. simpl.
    rewrite !notifications_app. simpl. rewrite app_nil_r. reflexivity.
  - injection Htick as <-. left. apply notifications_refreshed.
Qed.

Lemma dec_starts_with_digit (n : Z) :
  exists c rest, dec n = String c rest /\ c <> "+"%char.
Proof.
  unfold dec. destruct (N.to_uint (Z.to_N n)); simpl;
    eexists; eexists; (split; [reflexivity | discriminate]).
Qed.

(** Whatever the number, [format(x, ".2f")] does not start with a plus
    sign. *)
Lemma format_2f_without_plus (x : float) :
  exists c rest, format_2f false x = String c rest /\ c <> "+"%char.
Proof.
  unfold format_2f, sign_prefix.
  destruct (Prim2SF x) as [[|]|[|]| |[|] m e]; simpl;
    try (eexists; eexists; (split; [reflexivity | discriminate])).
  unfold fixed2.
  destruct (dec_starts_with_digit (hundredths m e / 100)) as (c & rest & -> & Hc).
  simpl. eexists; eexists; (split; [reflexivity | exact Hc]).
Qed.

(** C8 at a rise from 2000 to 2021: the message shows the change without
    a sign, where the menu entry for the same change shows [+1.05]. *)
Example alert_message_without_plus_sign :
  alert_message (state 2021 2000 1)
  = "Price Alert: ETH changed by 1.05% and is now at $2021.00!"
  /\ create_tray_menu (state 2021 2000 1)
     = [MenuItem (Text "ETH Price: $2021.00") NoAction;
        MenuItem (Text "Reference: $2000.00") NoAction;
        MenuItem (Text "Change: +1.05%") NoAction;
        SEPARATOR;
        MenuItem (Text "Set Current as Reference") SetCurrentAsReference;
        SubMenu (ThresholdText 1) create_threshold_menu;
        SEPARATOR;
        MenuItem (Text "Last Update: ") NoAction;
        MenuItem (Text "Exit") ExitProgram].
Proof. split; vm_compute; reflexivity. Qed.

(** ** A failed write ends the loop *)

(** When an alert cannot be written to the settings file, the exception
    leaves [monitor_price]: the loop ends although [running] is still
    [True]. *)
Lemma monitor_price_ends_on_failed_write
    (net : http) (now : string) (later : list (http * string)) (w w1 : world) (m : menu) :
  running (self w) = true ->
  get_eth_price net now w = Ok true w1 ->
  check_alert_condition (self w1) = true ->
  tray_icon (self w1) = Some m ->
  writable (files w1) = false ->
  exists w',
    monitor_price ((net, now) :: later) w = Raised OSError w'
    /\ running (self w') = true.
Proof.
  intros Hrun Hfetch Halert Hicon Hwr.
  assert (Hrun1 : running (self w1) = true).
  { rewrite get_eth_price_cases in Hfetch.
    destruct (fetched_price net) as [[price|]|e]; try no_fetch Hfetch.
    cbv zeta in Hfetch.
    destruct (reference_price (self w) =? 0);
      [destruct (writable (files w)); try no_fetch Hfetch|];
      injection Hfetch as <-; exact Hrun. }
  simpl. unfold bind at 1. unfold get_self at 1. rewrite Hrun.
  unfold bind at 1. rewrite tick_cases, Hfetch, on_price_cases, Halert, Hicon.
  cbv zeta. rewrite Hwr. eexists. split; [reflexivity|exact Hrun1].
Qed.

(** Once [exit_program] has run, the loop does nothing more. *)
Lemma monitor_price_stops_after_exit (polls : list (http * string)) (w w1 : world) :
  exit_program w = Ok tt w1 ->
  monitor_price polls w1 = Ok tt w1.
Proof.
  intros H. unfold exit_program in H. run. injection H as <-.
  destruct polls as [|[net now] later]; reflexivity.
Qed.

(** ** The scenarios of the specification *)

(** Reference 2000, threshold 1.0, price 2021: the alert fires and the
    reference becomes 2021. *)
Example scenario_alert :
  exists w',
    tick (ticker "2021") "12:00:10" before_alert = Ok tt w'
    /\ reference_price (self w') = 2021
    /\ List.length (notifications (trace w')) = 1%nat.
Proof. eexists. split; [vm_compute; reflexivity|]. split; reflexivity. Qed.

(** Reference 2000, threshold 1.0, price 2010: the change is 0.5, no
    alert, and the reference stays 2000. *)
Example scenario_no_alert :
  exists w',
    tick (ticker "2010") "12:00:10" before_alert = Ok tt w'
    /\ calculate_change (self w') = 0.5
    /\ reference_price (self w') = 2000
    /\ notifications (trace w') = [].
Proof. eexists. split; [vm_compute; reflexivity|]. repeat split; reflexivity. Qed.

(** A fresh monitor and a price of 1800: the reference becomes 1800, no
    alert, and the settings file holds the reference. *)
Example scenario_bootstrap :
  exists w',
    tick (ticker "1800") "12:00:00" (world_of initial Missing true) = Ok tt w'
    /\ reference_price (self w') = 1800
    /\ notifications (trace w') = []
    /\ contents (files w')
       = Object [("reference_price", 1800); ("price_change_threshold", 1)].
Proof. eexists. split; [vm_compute; reflexivity|]. repeat split; reflexivity. Qed.

(** ** The settings file, beyond the claims *)

(** [load_config] never raises and only ever assigns the reference and
    the threshold; the file, the events and the other attributes are as
    before, and the threshold is replaced only together with the
    reference, both by the values the file binds. *)
Theorem load_config_effect (w : world) :
  exists w',
    load_config w = Ok tt w'
    /\ files w' = files w /\ trace w' = trace w
    /\ current_price (self w') = current_price (self w)
    /\ last_update (self w') = last_update (self w)
    /\ running (self w') = running (self w)
    /\ tray_icon (self w') = tray_icon (self w)
    /\ (price_change_threshold (self w') = price_change_threshold (self w)
        \/ exists d,
             contents (files w) = Object d
             /\ lookup "reference_price" d = Some (reference_price (self w'))
             /\ lookup "price_change_threshold" d
                = Some (price_change_threshold (self w'))).
Proof.
  destruct w as [s [c wr] t]. unfold load_config, get_files, bind. simpl.
  destruct c as [| | |d]; run; try (eexists; repeat split; auto; fail).
  destruct (lookup "reference_price" d) as [r|] eqn:Hr; simpl;
    [|eexists; repeat split; auto].
  destruct (lookup "price_change_threshold" d) as [th|] eqn:Ht; simpl;
    eexists; repeat split; auto.
  right. exists d. auto.
Qed.

(** An object that binds both keys is loaded whole, whatever else it
    binds and whatever the attributes were: the reference and the
    threshold become the file's, nothing else changes. *)
Theorem load_config_reads_both_settings
    (w : world) (d : list (string * float)) (r t : float) :
  contents (files w) = Object d ->
  lookup "reference_price" d = Some r ->
  lookup "price_change_threshold" d = Some t ->
  exists w',
    load_config w = Ok tt w'
    /\ reference_price (self w') = r
    /\ price_change_threshold (self w') = t
    /\ current_price (self w') = current_price (self w)
    /\ last_update (self w') = last_update (self w)
    /\ running (self w') = running (self w)
    /\ tray_icon (self w') = tray_icon (self w)
    /\ files w' = files w /\ trace w' = trace w.
Proof.
  intros Hc Hr Ht. rewrite (load_config_complete w d r t Hc Hr Ht).
  eexists. repeat split; reflexivity.
Qed.

Lemma load_config_reads_both_settings_witness :
  exists w',
    load_config
      (world_of initial
         (Object [("note", 7); ("price_change_threshold", 2);
                  ("reference_price", 1800)]) true)
    = Ok tt w'
    /\ reference_price (self w') = 1800
    /\ price_change_threshold (self w') = 2.
Proof.
  destruct (load_config_reads_both_settings
              (world_of initial
                 (Object [("note", 7); ("price_change_threshold", 2);
                          ("reference_price", 1800)]) true)
              _ 1800 2 eq_refl eq_refl eq_refl)
    as (w' & H & Hr & Ht & _).
  exists w'. auto.
Defined.

(** ** The menu callbacks *)

(** Choosing a threshold stores it at once; when the settings file can be
    written it is persisted with the unchanged reference and the menu is
    rebuilt if there is an icon; when the file cannot be written the
    callback raises, the new threshold staying in memory only. *)
Theorem set_alert_threshold_effect (threshold : float) (w : world) :
  (writable (files w) = true ->
   exists w',
     set_alert_threshold threshold w = Ok tt w'
     /\ self w' = match tray_icon (self w) with
                  | Some _ =>
                      with_menu (with_threshold (self w) threshold)
                        (create_tray_menu (with_threshold (self w) threshold))
                  | None => with_threshold (self w) threshold
                  end
     /\ in_sync w'
     /\ notifications (trace w') = notifications (trace w))
  /\ (writable (files w) = false ->
      set_alert_threshold threshold w
      = Raised OSError (updated w (with_threshold (self w) threshold))).
Proof.
  destruct w as [[cur ref th upd rn icon] [c wr] t].
  unfold set_alert_threshold, in_sync. split; intros Hwr; simpl in Hwr; subst wr.
  - destruct icon as [m|]; run; (eexists; split; [reflexivity|]);
      repeat split; simpl;
      rewrite ?notifications_app; simpl; rewrite ?app_nil_r; reflexivity.
  - run. reflexivity.
Qed.

Lemma set_alert_threshold_effect_witness :
  exists w',
    set_alert_threshold 2 before_alert = Ok tt w'
    /\ price_change_threshold (self w') = 2
    /\ reference_price (self w') = 2000
    /\ contents (files w')
       = Object [("reference_price", 2000); ("price_change_threshold", 2)].
Proof.
  destruct (proj1 (set_alert_threshold_effect 2 before_alert) eq_refl)
    as (w' & H & Hs & Hf & _).
  exists w'. split; [exact H|].
  unfold in_sync in Hf. rewrite Hf, Hs. repeat split; reflexivity.
Defined.

(** "Set Current as Reference" does nothing while the current price is
    not above zero (as before the first fetch); otherwise, the settings
    file being writable, it makes the current price the reference,
    persists it and rebuilds the menu, after which the alert condition no
    longer holds for any threshold that is not at or below zero. *)
Theorem set_current_price_as_reference_effect (w : world) :
  ((0 <? current_price (self w)) = false ->
   set_current_price_as_reference w = Ok tt w)
  /\ ((0 <? current_price (self w)) = true ->
      writable (files w) = true ->
      exists w',
        set_current_price_as_reference w = Ok tt w'
        /\ reference_price (self w') = current_price (self w)
        /\ current_price (self w') = current_price (self w)
        /\ price_change_threshold (self w') = price_change_threshold (self w)
        /\ in_sync w'
        /\ tray_icon (self w') = Some (create_tray_menu (self w'))
        /\ ((price_change_threshold (self w) <=? 0) = false ->
            check_alert_condition (self w') = false)).
Proof.
  destruct w as [[cur ref th upd rn icon] [c wr] t].
  unfold set_current_price_as_reference, in_sync. split.
  - intros H. run. rewrite H. reflexivity.
  - intros H Hwr. simpl in Hwr. subst wr. run. rewrite H. simpl.
    eexists. repeat split.
    intros Hth. apply no_alert_at_reference; simpl; trivial.
Qed.

Lemma set_current_price_as_reference_effect_witness :
  set_current_price_as_reference (world_of (attached 0 2000 1) Missing true)
  = Ok tt (world_of (attached 0 2000 1) Missing true)
  /\ exists w',
       set_current_price_as_reference
         (world_of (attached 2021 2000 1) Missing true) = Ok tt w'
       /\ reference_price (self w') = 2021
       /\ check_alert_condition (self w') = false.
Proof.
  split.
  - apply (proj1 (set_current_price_as_reference_effect
                    (world_of (attached 0 2000 1) Missing true))).
    reflexivity.
  - destruct (proj2 (set_current_price_as_reference_effect
                       (world_of (attached 2021 2000 1) Missing true))
                eq_refl eq_refl) as (w' & H & Hr & _ & _ & _ & _ & Hq).
    exists w'. split; [exact H|]. split; [exact Hr|].
    apply Hq. reflexivity.
Defined.

(** ** The answer of the exchange *)

(** A price is read exactly from a body that is an object whose ["code"]
    is the string ["0"] and whose ["data"] is a list starting with an
    object that binds ["last"] to something [float] converts; the later
    ticker records and the other keys play no part. *)
Theorem fetched_price_shape (net : http) (price : float) :
  fetched_price net = Val (Some price) <->
  exists d first rest last,
    net = Response (Some (JObj d))
    /\ lookup "code" d = Some (JStr "0")
    /\ lookup "data" d = Some (JArr (JObj first :: rest))
    /\ lookup "last" first = Some last
    /\ to_float last = Val price.
Proof.
  split.
  - unfold fetched_price.
    destruct net as [|[data|]]; simpl; try discriminate.
    destruct data as [| | | | | |d]; simpl; try discriminate.
    destruct (lookup "code" d) as [code|] eqn:Hcode; simpl; try discriminate.
    destruct (eq_str code "0") eqn:Hzero; try discriminate.
    destruct code as [| | | |c| |]; simpl in Hzero; try discriminate Hzero.
    apply String.eqb_eq in Hzero. subst c.
    destruct (lookup "data" d) as [tickers|] eqn:Hdata; simpl; try discriminate.
    destruct tickers as [| | | |[|ch str]|[|first rest]|]; simpl; try discriminate.
    destruct first as [| | | | | |f]; simpl; try discriminate.
    destruct (lookup "last" f) as [last|] eqn:Hlast; simpl; try discriminate.
    destruct (to_float last) as [x|e] eqn:Hfloat; simpl; try discriminate.
    intros H. injection H as <-.
    exists d, f, rest, last. auto.
  - intros (d & first & rest & last & -> & Hcode & Hdata & Hlast & Hfloat).
    unfold fetched_price. simpl. rewrite Hcode. simpl. rewrite Hdata. simpl.
    rewrite Hlast. simpl. rewrite Hfloat. reflexivity.
Qed.

(** ** One iteration, beyond the claims *)

Lemma refreshed_running (w : world) :
  running (self (refreshed w)) = running (self w)
  /\ writable (files (refreshed w)) = writable (files w).
Proof.
  unfold refreshed. destruct (tray_icon (self w)); simpl; auto.
Qed.

(** An iteration that fetched a price and ran to its end raises exactly
    one notification, the alert message of the state the fetch left, when
    the alert condition holds there, and none when it does not. *)
Theorem tick_notifies_exactly_on_alert
    (net : http) (now : string) (w w1 w' : world) :
  get_eth_price net now w = Ok true w1 ->
  tick net now w = Ok tt w' ->
  notifications (trace w')
  = (notifications (trace w1)
     ++ (if check_alert_condition (self w1) then [alert_message (self w1)]
         else []))%list.
Proof.
  intros Hfetch Htick. rewrite tick_cases, Hfetch, on_price_cases in Htick.
  destruct (check_alert_condition (self w1)).
  - destruct (tray_icon (self w1)); try discriminate Htick.
    cbv zeta in Htick.
    destruct (writable (files w1)); try discriminate Htick.
    injection Htick as <-.
    rewrite notifications_refreshed. simpl.
    rewrite !notifications_app. simpl. rewrite app_nil_r. reflexivity.
  - injection Htick as <-. rewrite notifications_refreshed.
    symmetry. apply app_nil_r.
Qed.

Lemma tick_notifies_exactly_on_alert_witness :
  exists w',
    tick (ticker "1975") "12:00:10" before_alert = Ok tt w'
    /\ notifications (trace w')
       = ["Price Alert: ETH changed by -1.25% and is now at $1975.00!"].
Proof.
  eexists. split; [vm_compute; reflexivity|].
  rewrite (tick_notifies_exactly_on_alert
             (ticker "1975") "12:00:10" before_alert
             (updated before_alert
                (with_price (self before_alert) 1975 "12:00:10")) _
             ltac:(vm_compute; reflexivity) ltac:(vm_compute; reflexivity)).
  vm_compute. reflexivity.
Defined.

(** With the reference set, an iteration whose price does not meet the
    alert condition stores the price and the time and nothing more: the
    reference is kept, the settings file is not written, no notification
    is raised. *)
Theorem quiet_tick_writes_nothing
    (net : http) (now : string) (w : world) (price : float) :
  (reference_price (self w) =? 0) = false ->
  fetched_price net = Val (Some price) ->
  check_alert_condition (with_price (self w) price now) = false ->
  exists w',
    tick net now w = Ok tt w'
    /\ current_price (self w') = price
    /\ last_update (self w') = now
    /\ reference_price (self w') = reference_price (self w)
    /\ price_change_threshold (self w') = price_change_threshold (self w)
    /\ files w' = files w
    /\ notifications (trace w') = notifications (trace w).
Proof.
  intros Href Hprice Hquiet.
  rewrite tick_cases, get_eth_price_cases, Hprice. cbv zeta.
  rewrite Href, on_price_cases. simpl self. rewrite Hquiet.
  eexists. split; [reflexivity|].
  match goal with
  | |- context [refreshed ?x] =>
      destruct (refreshed_settings x) as (Hc & Hr & Ht & Hu & Hf)
  end.
  rewrite notifications_refreshed, Hc, Hr, Ht, Hu, Hf.
  repeat split; reflexivity.
Qed.

Lemma quiet_tick_writes_nothing_witness :
  exists w',
    tick (ticker "2010") "12:00:10" before_alert = Ok tt w'
    /\ current_price (self w') = 2010
    /\ reference_price (self w') = 2000
    /\ files w' = files before_alert.
Proof.
  destruct (quiet_tick_writes_nothing (ticker "2010") "12:00:10" before_alert
              2010 eq_refl ltac:(vm_compute; reflexivity) eq_refl)
    as (w' & H & Hc & _ & Hr & _ & Hf & _).
  exists w'. auto.
Defined.

(** When the alert condition is met before [create_tray_icon] has
    assigned [self.tray_icon], the notification cannot be raised: the
    iteration ends with [AttributeError] in the state the fetch left,
    with no notification and no menu assigned; and if the reference was
    set before (not [0.0]), it is not moved and the settings file is not
    written. *)
Theorem alert_without_icon_raises
    (net : http) (now : string) (w w1 : world) :
  get_eth_price net now w = Ok true w1 ->
  check_alert_condition (self w1) = true ->
  tray_icon (self w) = None ->
  tick net now w = Raised AttributeError w1
  /\ notifications (trace w1) = notifications (trace w)
  /\ menu_assignments (trace w1) = menu_assignments (trace w)
  /\ ((reference_price (self w) =? 0) = false ->
      reference_price (self w1) = reference_price (self w)
      /\ files w1 = files w).
Proof.
  intros Hfetch Halert Hicon.
  assert (H1 : tray_icon (self w1) = None
               /\ notifications (trace w1) = notifications (trace w)
               /\ menu_assignments (trace w1) = menu_assignments (trace w)
               /\ ((reference_price (self w) =? 0) = false ->
                   reference_price (self w1) = reference_price (self w)
                   /\ files w1 = files w)).
  { rewrite get_eth_price_cases in Hfetch.
    destruct (fetched_price net) as [[price|]|e]; try no_fetch Hfetch.
    cbv zeta in Hfetch.
    destruct (reference_price (self w) =? 0);
      [destruct (writable (files w)); try no_fetch Hfetch|];
      injection Hfetch as <-; simpl;
      rewrite ?notifications_app, ?menu_assignments_app; simpl;
      rewrite ?app_nil_r, ?Nat.add_0_r; repeat split; auto; discriminate. }
  destruct H1 as (Hicon1 & Hn & Hm & Hr).
  rewrite tick_cases, Hfetch, on_price_cases, Halert, Hicon1. auto.
Qed.

Lemma alert_without_icon_raises_witness :
  exists w1,
    tick (ticker "2021") "12:00:00"
         (world_of (state 0 2000 1)
                   (Object [("reference_price", 2000); ("price_change_threshold", 1)])
                   true)
    = Raised AttributeError w1
    /\ reference_price (self w1) = 2000
    /\ notifications (trace w1) = [].
Proof.
  eexists. split.
  - apply (alert_without_icon_raises (ticker "2021") "12:00:00"
             (world_of (state 0 2000 1)
                (Object [("reference_price", 2000); ("price_change_threshold", 1)])
                true));
      [vm_compute; reflexivity | reflexivity | reflexivity].
  - split; reflexivity.
Defined.

(** ** The loop *)

(** What an iteration keeps, however it ends: the threshold, [running],
    whether the settings file can be written; the reference is the old
    one or the price just stored; and a settings file that matched the
    settings in memory still matches them, if it can be written. *)
Lemma tick_keeps (net : http) (now : string) (w : world) :
  let w' := world_after (tick net now w) in
  price_change_threshold (self w') = price_change_threshold (self w)
  /\ running (self w') = running (self w)
  /\ writable (files w') = writable (files w)
  /\ (reference_price (self w') = reference_price (self w)
      \/ reference_price (self w') = current_price (self w'))
  /\ (writable (files w) = true -> in_sync w -> in_sync w').
Proof.
  unfold in_sync. rewrite tick_cases, get_eth_price_cases. unfold handled.
  destruct w as [[cur ref th upd rn icon] [c wr out] t].
  destruct (fetched_price net) as [[price|]|e]; cbv zeta; simpl;
    try (repeat split; auto; fail);
    try (destruct out; simpl; repeat split; auto; fail).
  destruct (ref =? 0); [destruct wr|]; simpl;
    try (destruct out; simpl; repeat split; auto; discriminate);
    rewrite on_price_cases; simpl;
    match goal with
    | |- context [check_alert_condition ?s] => destruct (check_alert_condition s)
    end;
    destruct icon as [m|]; try destruct wr; cbv zeta; simpl;
    unfold refreshed; simpl; repeat split; auto; discriminate.
Qed.

Lemma monitor_price_cons
    (net : http) (now : string) (later : list (http * string)) (w : world) :
  monitor_price ((net, now) :: later) w
  = if running (self w) then
      match tick net now w with
      | Ok _ w1 => monitor_price later w1
      | Raised e w1 => Raised e w1
      end
    else Ok tt w.
Proof.
  simpl. unfold bind, get_self, ret.
  destruct (running (self w)); reflexivity.
Qed.

(** The loop never changes the threshold or [running], whatever the
    exchange answers and however the loop ends: the threshold changes
    only from the menu, and only [exit_program] stops the loop. *)
Theorem monitor_price_keeps_threshold_and_running
    (polls : list (http * string)) (w : world) :
  price_change_threshold (self (world_after (monitor_price polls w)))
  = price_change_threshold (self w)
  /\ running (self (world_after (monitor_price polls w))) = running (self w).
Proof.
  revert w. induction polls as [|[net now] later IH]; intros w.
  - split; reflexivity.
  - rewrite monitor_price_cons.
    destruct (tick_keeps net now w) as (Ht & Hr & _).
    destruct (running (self w)) eqn:Hrun; [|simpl; auto].
    destruct (tick net now w) as [[] w1|e w1]; simpl in *.
    + destruct (IH w1) as [IHt IHr]. rewrite IHt, IHr, Ht, Hr. auto.
    + rewrite Ht, Hr. auto.
Qed.

(** While the settings file can be written, the loop keeps it equal to
    the settings in memory: whatever the exchange answers and however the
    loop ends, a file that matched them before matches them after. *)
Theorem monitor_price_keeps_file_in_sync
    (polls : list (http * string)) (w : world) :
  writable (files w) = true ->
  in_sync w ->
  in_sync (world_after (monitor_price polls w)).
Proof.
  revert w. induction polls as [|[net now] later IH]; intros w Hwr Hsync.
  - exact Hsync.
  - rewrite monitor_price_cons.
    destruct (running (self w)); [|exact Hsync].
    destruct (tick_keeps net now w) as (_ & _ & Hw & _ & Hs).
    destruct (tick net now w) as [[] w1|e w1]; simpl in *.
    + apply IH; [rewrite Hw; exact Hwr | exact (Hs Hwr Hsync)].
    + exact (Hs Hwr Hsync).
Qed.

Lemma monitor_price_keeps_file_in_sync_witness :
  in_sync (world_after
             (monitor_price [(ticker "2010", "12:00:10");
                             (NoResponse, "12:00:20");
                             (ticker "2050", "12:00:30")] before_alert)).
Proof.
  apply (monitor_price_keeps_file_in_sync
           [(ticker "2010", "12:00:10"); (NoResponse, "12:00:20");
            (ticker "2050", "12:00:30")] before_alert);
    reflexivity.
Defined.

(** Running the loop over two runs of answers in a row is running it
    over the first and then, unless it raised, over the second. *)
Theorem monitor_price_app (polls later : list (http * string)) (w : world) :
  monitor_price (polls ++ later) w
  = (monitor_price polls ;; monitor_price later) w.
Proof.
  revert w. induction polls as [|[net now] rest IH]; intros w.
  - reflexivity.
  - change (((net, now) :: rest) ++ later)%list
      with ((net, now) :: (rest ++ later))%list.
    unfold bind at 1. rewrite !monitor_price_cons.
    destruct (running (self w)) eqn:Hrun.
    + destruct (tick net now w) as [[] w1|e w1]; [apply IH | reflexivity].
    + destruct later as [|[net2 now2] later2]; [reflexivity|].
      rewrite monitor_price_cons, Hrun. reflexivity.
Qed.

(** However long the exchange fails to give a price, the loop changes
    nothing, however it ends: the attributes and the settings file are as
    before, no notification is raised and no menu assigned; and as long
    as the error messages can be printed it goes on without raising. *)
Theorem monitor_price_survives_failed_fetches
    (polls : list (http * string)) (w : world) :
  Forall (fun poll => no_price (fst poll)) polls ->
  (self (world_after (monitor_price polls w)) = self w
   /\ files (world_after (monitor_price polls w)) = files w
   /\ notifications (trace (world_after (monitor_price polls w)))
      = notifications (trace w)
   /\ menu_assignments (trace (world_after (monitor_price polls w)))
      = menu_assignments (trace w))
  /\ (stdout_error (files w) = None ->
      exists w', monitor_price polls w = Ok tt w').
Proof.
  intros Hall. revert w.
  induction Hall as [|[net now] later Hnone _ IH]; intros w.
  - split; [repeat split; reflexivity | intros _; exists w; reflexivity].
  - rewrite monitor_price_cons.
    destruct (running (self w));
      [|split; [repeat split; reflexivity | intros _; exists w; reflexivity]].
    rewrite tick_cases, get_eth_price_cases.
    simpl in Hnone. unfold no_price in Hnone. unfold handled.
    destruct (fetched_price net) as [[price|]|e].
    + destruct (Hnone price). reflexivity.
    + apply IH.
    + destruct (stdout_error (files w)) as [failure|] eqn:Hout.
      * split; [repeat split; reflexivity | intros H; discriminate H].
      * destruct (IH (logged w (Printed e))) as ((Hs & Hf & Hn & Hm) & Hok).
        split.
        -- rewrite Hs, Hf, Hn, Hm. simpl.
           rewrite notifications_app, menu_assignments_app. simpl.
           rewrite app_nil_r, Nat.add_0_r. repeat split; reflexivity.
        -- intros _. apply Hok. exact Hout.
Qed.

Lemma monitor_price_survives_failed_fetches_witness :
  exists w',
    monitor_price [(NoResponse, "12:00:10"); (Response None, "12:00:20");
                   (ticker "n/a", "12:00:30")] before_alert = Ok tt w'
    /\ self w' = self before_alert
    /\ files w' = files before_alert.
Proof.
  destruct (monitor_price_survives_failed_fetches
              [(NoResponse, "12:00:10"); (Response None, "12:00:20");
               (ticker "n/a", "12:00:30")] before_alert)
    as ((Hs & Hf & _) & Hok).
  - repeat constructor; intros price; vm_compute; discriminate.
  - destruct (Hok eq_refl) as (w' & H). exists w'.
    rewrite H in Hs, Hf. auto.
Defined.

(** When the write of an alert to the settings file fails, the loop ends
    there with [OSError], [running] still [True]: the notification has
    been raised and the reference moved in memory, and the later answers
    are never requested. *)
Theorem monitor_price_dies_on_failed_write
    (net : http) (now : string) (later : list (http * string))
    (w w1 : world) (m : menu) :
  running (self w) = true ->
  get_eth_price net now w = Ok true w1 ->
  check_alert_condition (self w1) = true ->
  tray_icon (self w1) = Some m ->
  writable (files w1) = false ->
  exists w',
    monitor_price ((net, now) :: later) w = Raised OSError w'
    /\ running (self w') = true
    /\ reference_price (self w') = current_price (self w1)
    /\ current_price (self w') = current_price (self w1)
    /\ notifications (trace w')
       = (notifications (trace w1) ++ [alert_message (self w1)])%list.
Proof.
  intros Hrun Hfetch Halert Hicon Hwr.
  destruct (tick_keeps net now w) as (_ & Hr & _).
  rewrite monitor_price_cons, Hrun.
  rewrite tick_cases, Hfetch, on_price_cases, Halert, Hicon in *.
  cbv zeta in *. rewrite Hwr in *. simpl in Hr.
  eexists. split; [reflexivity|]. simpl. rewrite Hr, Hrun.
  rewrite notifications_app. repeat split; reflexivity.
Qed.

Lemma monitor_price_dies_on_failed_write_witness :
  exists w',
    monitor_price [(ticker "2021", "12:00:10"); (ticker "2100", "12:00:20")]
      (world_of (attached 2000 2000 1)
                (Object [("reference_price", 2000); ("price_change_threshold", 1)])
                false)
    = Raised OSError w'
    /\ reference_price (self w') = 2021.
Proof.
  edestruct (monitor_price_dies_on_failed_write
               (ticker "2021") "12:00:10" [(ticker "2100", "12:00:20")]
               (world_of (attached 2000 2000 1)
                  (Object [("reference_price", 2000); ("price_change_threshold", 1)])
                  false))
    as (w' & H & _ & Hr & _);
    [reflexivity | vm_compute; reflexivity | reflexivity | reflexivity
    | reflexivity |].
  exists w'. split; [exact H|]. rewrite Hr. reflexivity.
Defined.

(** ** The threshold and the reference *)

Lemma SFleb_trans (x y z : spec_float) :
  SFleb x y = true -> SFleb y z = true -> SFleb x z = true.
Proof.
  unfold SFleb.
  destruct x as [sx|sx| |sx mx ex], y as [sy|sy| |sy my ey],
           z as [sz|sz| |sz mz ez];
    simpl; try (intros; discriminate); try reflexivity;
    try destruct sx; try destruct sy; try destruct sz;
    simpl; try (intros; discriminate); try reflexivity;
    change (Pos.compare_cont Eq) with Pos.compare;
    destruct (Z.compare_spec ex ey), (Z.compare_spec ey ez),
             (Z.compare_spec ex ez);
    simpl; try (intros; discriminate); try reflexivity; try lia;
    destruct (Pos.compare_spec mx my), (Pos.compare_spec my mz),
             (Pos.compare_spec mx mz);
    simpl; try (intros; discriminate); try reflexivity; try lia.
Qed.

(** Lowering the threshold never hides an alert: a state that meets the
    alert condition meets it for every threshold at or below its own. *)
Theorem lower_threshold_keeps_alert (s : monitor) (threshold : float) :
  (threshold <=? price_change_threshold s) = true ->
  check_alert_condition s = true ->
  check_alert_condition (with_threshold s threshold) = true.
Proof.
  unfold check_alert_condition.
  change (calculate_change (with_threshold s threshold))
    with (calculate_change s).
  simpl. rewrite !leb_spec. apply SFleb_trans.
Qed.

Lemma lower_threshold_keeps_alert_witness :
  check_alert_condition (with_threshold (state 2021 2000 1) 0.5) = true.
Proof.
  apply (lower_threshold_keeps_alert (state 2021 2000 1) 0.5); reflexivity.
Defined.

(** However an iteration ends, the reference is the one it started with
    or the price the iteration has just stored: the loop never gives the
    reference any other value. *)
Theorem tick_reference_old_or_current (net : http) (now : string) (w : world) :
  reference_price (self (world_after (tick net now w))) = reference_price (self w)
  \/ reference_price (self (world_after (tick net now w)))
     = current_price (self (world_after (tick net now w))).
Proof.
  destruct (tick_keeps net now w) as (_ & _ & _ & H & _). exact H.
Qed.

(** A fetched price of zero does not end the bootstrap: with the
    reference unset, the iteration leaves the reference at zero however
    it ends, so the next successful fetch sets it again. *)
Theorem zero_price_leaves_reference_unset
    (net : http) (now : string) (w : world) (price : float) :
  (reference_price (self w) =? 0) = true ->
  fetched_price net = Val (Some price) ->
  (price =? 0) = true ->
  (reference_price (self (world_after (tick net now w))) =? 0) = true
  /\ current_price (self (world_after (tick net now w))) = price.
Proof.
  intros Href Hprice Hzero.
  rewrite tick_cases, get_eth_price_cases, Hprice. cbv zeta. rewrite Href.
  unfold handled.
  destruct w as [[cur ref th upd rn icon] [c wr out] t]. simpl in *.
  destruct wr; simpl; [|destruct out; simpl; auto].
  rewrite on_price_cases. simpl.
  match goal with
  | |- context [check_alert_condition ?s] => destruct (check_alert_condition s)
  end; destruct icon as [m|]; cbv zeta; simpl; unfold refreshed; simpl; auto.
Qed.

Lemma zero_price_leaves_reference_unset_witness :
  (reference_price
     (self (world_after (tick (ticker "0") "12:00:00"
                              (world_of initial Missing true)))) =? 0) = true.
Proof.
  apply (zero_price_leaves_reference_unset (ticker "0") "12:00:00"
           (world_of initial Missing true) 0);
    [reflexivity | vm_compute; reflexivity | reflexivity].
Defined.

(** ** The menu stays up to date *)

Lemma tick_keeps_menu_current (net : http) (now : string) (w : world) :
  writable (files w) = true ->
  menu_current w ->
  menu_current (world_after (tick net now w)).
Proof.
  unfold menu_current. rewrite tick_cases, get_eth_price_cases.
  unfold handled.
  destruct w as [[cur ref th upd rn icon] [c wr out] t]. simpl.
  intros -> Hmenu. destruct icon as [m|]; [|discriminate Hmenu].
  destruct (fetched_price net) as [[price|]|e]; cbv zeta; simpl;
    try exact Hmenu; try (destruct out; exact Hmenu).
  destruct (ref =? 0); simpl; rewrite on_price_cases; simpl;
    match goal with
    | |- context [check_alert_condition ?s] => destruct (check_alert_condition s)
    end; cbv zeta; simpl; reflexivity.
Qed.

(** With an icon attached and a writable settings file, the loop keeps
    the icon's menu equal to the menu built from the attributes: if the
    menu was up to date before, it is up to date after any number of
    iterations, whatever the exchange answers. *)
Theorem monitor_price_keeps_menu_current
    (polls : list (http * string)) (w : world) :
  writable (files w) = true ->
  menu_current w ->
  menu_current (world_after (monitor_price polls w)).
Proof.
  revert w. induction polls as [|[net now] later IH]; intros w Hwr Hmenu.
  - exact Hmenu.
  - rewrite monitor_price_cons.
    destruct (running (self w)); [|exact Hmenu].
    destruct (tick_keeps net now w) as (_ & _ & Hw & _).
    pose proof (tick_keeps_menu_current net now w Hwr Hmenu) as Hm.
    destruct (tick net now w) as [[] w1|e w1]; simpl in *.
    + apply IH; [rewrite Hw; exact Hwr | exact Hm].
    + exact Hm.
Qed.

Lemma monitor_price_keeps_menu_current_witness :
  menu_current (world_after
                  (monitor_price [(ticker "2010", "12:00:10");
                                  (NoResponse, "12:00:20");
                                  (ticker "2050", "12:00:30")] before_alert)).
Proof.
  apply (monitor_price_keeps_menu_current
           [(ticker "2010", "12:00:10"); (NoResponse, "12:00:20");
            (ticker "2050", "12:00:30")] before_alert);
    reflexivity.
Defined.
